(** * pomoflow: the heartbeat / shutdown state machine of [run.py]

    The server keeps five module globals ([last_heartbeat], [server],
    [shutdown_flag], [shutdown_requested], [shutdown_request_time]).  The
    request handler [PomodoroHandler] writes them, the background thread
    [heartbeat_monitor] reads them once a second and may call
    [initiate_shutdown].

    Conventions of the embedding.
    - [time.time()] returns a float; a timestamp is a rational here and every
      call of [time.time()] is an explicit argument (a clock reading).
    - One handler call and one iteration of the monitor loop are atomic
      steps over the shared globals; a run of the program is a list of such
      steps ([Event]).
    - [print] appends its argument to [stdout]; starting the thread that
      runs [server.shutdown] increments [shutdown_threads]. *)

From Stdlib Require Import QArith Qround Lqa ZArith List String Ascii Bool Lia.
From Stdlib Require Import DecimalString.
Import ListNotations.

Open Scope string_scope.
Open Scope Q_scope.

(** ** Comparisons on timestamps *)

Module Clock.

Definition ltb (x y : Q) : bool := negb (Qle_bool y x).
Definition gtb (x y : Q) : bool := ltb y x.

End Clock.

Infix "<?" := Clock.ltb (at level 70, no associativity) : Q_scope.
Infix ">?" := Clock.gtb (at level 70, no associativity) : Q_scope.

(** ** Python helpers *)

Module Py.

(** [str.endswith]. *)
Definition endswith (s suffix : string) : bool :=
  let n := String.length s in
  let m := String.length suffix in
  (m <=? n)%nat && String.eqb (String.substring (n - m) m s) suffix.

(** The integer a value is rounded to by the format [.0f]: to nearest, a tie
    going to the even neighbour. *)
Definition round_half_even (x : Q) : Z :=
  let f := Qfloor x in
  match Qcompare (x - inject_Z f) (1 # 2) with
  | Lt => f
  | Gt => (f + 1)%Z
  | Eq => if Z.even f then f else (f + 1)%Z
  end.

(** [f"{x:.0f}"], for a value that does not round to a negative zero. *)
Definition format_0f (x : Q) : string :=
  NilZero.string_of_int (Z.to_int (round_half_even x)).

Definition newline : string := String (ascii_of_nat 10) EmptyString.

End Py.

(** ** Configuration *)

Definition HEARTBEAT_TIMEOUT : Q := 120.
Definition SHUTDOWN_GRACE_PERIOD : Q := 3.

(** The literal [2] of [elif heartbeat_elapsed < 2] in [heartbeat_monitor]
    (the specification's [resume_threshold]). *)
Definition RESUME_THRESHOLD : Q := 2.

(** ** Global state *)

(** Program point of the [heartbeat_monitor] thread: inside
    [time.sleep(HEARTBEAT_TIMEOUT)], inside the [time.sleep(1)] of the loop,
    or returned from the loop. *)
Inductive Phase : Set := WARMUP | MONITORING | TERMINATING.

(** The listener object held by the global [server]; only its presence is
    looked at ([if server:]), the port identifies it. *)
Definition TCPServer : Set := Z.

Record State : Type := mkState {
  last_heartbeat : Q;
  server : option TCPServer;
  shutdown_flag : bool;              (* threading.Event: is_set() *)
  shutdown_requested : bool;
  shutdown_request_time : Q;
  stdout : list string;              (* arguments of print, oldest first *)
  shutdown_threads : nat;            (* Thread(target=server.shutdown).start() *)
  monitor : Phase
}.

Definition set_last_heartbeat (t : Q) (s : State) : State :=
  mkState t (server s) (shutdown_flag s) (shutdown_requested s)
          (shutdown_request_time s) (stdout s) (shutdown_threads s) (monitor s).

Definition set_shutdown_requested (b : bool) (s : State) : State :=
  mkState (last_heartbeat s) (server s) (shutdown_flag s) b
          (shutdown_request_time s) (stdout s) (shutdown_threads s) (monitor s).

Definition set_shutdown_request_time (t : Q) (s : State) : State :=
  mkState (last_heartbeat s) (server s) (shutdown_flag s) (shutdown_requested s)
          t (stdout s) (shutdown_threads s) (monitor s).

Definition set_shutdown_flag (s : State) : State :=
  mkState (last_heartbeat s) (server s) true (shutdown_requested s)
          (shutdown_request_time s) (stdout s) (shutdown_threads s) (monitor s).

Definition print (line : string) (s : State) : State :=
  mkState (last_heartbeat s) (server s) (shutdown_flag s) (shutdown_requested s)
          (shutdown_request_time s) (stdout s ++ [line]) (shutdown_threads s)
          (monitor s).

Definition start_shutdown_thread (s : State) : State :=
  mkState (last_heartbeat s) (server s) (shutdown_flag s) (shutdown_requested s)
          (shutdown_request_time s) (stdout s) (S (shutdown_threads s))
          (monitor s).

Definition set_monitor (p : Phase) (s : State) : State :=
  mkState (last_heartbeat s) (server s) (shutdown_flag s) (shutdown_requested s)
          (shutdown_request_time s) (stdout s) (shutdown_threads s) p.

(** The globals when [main] starts the monitor thread at time [t0]:
    [last_heartbeat] has just been reset, [server] is bound. *)
Definition boot (srv : TCPServer) (t0 : Q) : State :=
  mkState t0 (Some srv) false false 0 [] 0 WARMUP.

(** ** The request handler *)

Module Http.

Record Response : Set := mkResponse {
  status : Z;
  headers : list (string * string);   (* those of send_header, in order *)
  body : string
}.

(** What a handler call does with the request: an answer written by the
    handler itself, or the file named by the path, served by
    [serve_no_cache] or by [SimpleHTTPRequestHandler.do_GET]. *)
Inductive Reply : Set :=
| Sent (r : Response)
| NoCacheFile (path : string)
| StaticFile (path : string).

End Http.
Import Http.

(** [PomodoroHandler.do_GET]; [now] is the reading of [time.time()] taken on
    the [/heartbeat] path. *)
Definition do_GET (path : string) (now : Q) (s : State) : State * Reply :=
  if String.eqb path "/heartbeat" then
    (set_shutdown_requested false (set_last_heartbeat now s),
     Sent (mkResponse 200
             [("Content-Type", "text/plain"); ("Cache-Control", "no-cache")]
             "ok"))
  else if String.eqb path "/shutdown" then
    (s, Sent (mkResponse 200 [("Content-Type", "text/plain")] "use POST"))
  else
    let path := if String.eqb path "/" then "/index.html" else path in
    if Py.endswith path ".html" then (s, NoCacheFile path)
    else (s, StaticFile path).

(** [PomodoroHandler.do_POST]; [now] is the reading of [time.time()] taken on
    the [/shutdown] path. *)
Definition do_POST (path : string) (now : Q) (s : State) : State * Reply :=
  if String.eqb path "/shutdown" then
    (set_shutdown_request_time now (set_shutdown_requested true s),
     Sent (mkResponse 200 [("Content-Type", "text/plain")] "noted"))
  else
    (s, Sent (mkResponse 404 [] "")).

(** ** Shutdown *)

Definition shutdown_line (reason : string) : string :=
  Py.newline ++ "[Shutdown] " ++ reason.

(** [initiate_shutdown]. *)
Definition initiate_shutdown (reason : string) (s : State) : State :=
  if shutdown_flag s then s
  else
    let s := set_shutdown_flag (print (shutdown_line reason) s) in
    match server s with
    | Some _ => start_shutdown_thread s
    | None => s
    end.

(** ** The monitor thread *)

Definition tab_closed_reason : string := "Browser tab closed".

Definition timeout_reason (elapsed : Q) : string :=
  "No heartbeat for " ++ Py.format_0f elapsed ++ " seconds (tab likely closed)".

(** The three readings of [time.time()] in one iteration of the loop, in
    program order: for [grace_elapsed], for [heartbeat_elapsed], for
    [elapsed]. *)
Record Reads : Set := mkReads { r_grace : Q; r_beat : Q; r_elapsed : Q }.

(** An iteration in which the three readings coincide. *)
Definition at_time (t : Q) : Reads := mkReads t t t.

(** How an iteration leaves the loop body. *)
Inductive Ctl : Set := Break | Continue | Next.

(** The normal heartbeat timeout check that ends the loop body. *)
Definition timeout_check (now : Q) (s : State) : State * Ctl :=
  let elapsed := now - last_heartbeat s in
  if elapsed >? HEARTBEAT_TIMEOUT then
    (initiate_shutdown (timeout_reason elapsed) s, Break)
  else (s, Next).

(** The loop body of [heartbeat_monitor] after its two tests of
    [shutdown_flag]. *)
Definition monitor_body (c : Reads) (s : State) : State * Ctl :=
  if shutdown_requested s then
    let grace_elapsed := r_grace c - shutdown_request_time s in
    let heartbeat_elapsed := r_beat c - last_heartbeat s in
    if (grace_elapsed >? SHUTDOWN_GRACE_PERIOD)
       && (heartbeat_elapsed >? SHUTDOWN_GRACE_PERIOD) then
      (initiate_shutdown tab_closed_reason s, Break)
    else if heartbeat_elapsed <? RESUME_THRESHOLD then
      (set_shutdown_requested false s, Continue)
    else timeout_check (r_elapsed c) s
  else timeout_check (r_elapsed c) s.

(** [while not shutdown_flag.is_set()]: enter the next sleep or return. *)
Definition loop_head (s : State) : State :=
  if shutdown_flag s then set_monitor TERMINATING s
  else set_monitor MONITORING s.

(** The monitor thread wakes from the sleep it is in and runs to its next
    sleep or to its return. *)
Definition monitor_wake (c : Reads) (s : State) : State :=
  match monitor s with
  | WARMUP => loop_head s
  | MONITORING =>
      if shutdown_flag s then set_monitor TERMINATING s
      else
        match monitor_body c s with
        | (s', Break) => set_monitor TERMINATING s'
        | (s', _) => loop_head s'
        end
  | TERMINATING => s
  end.

(** ** Runs *)

Inductive Event : Type :=
| GET (path : string) (now : Q)
| POST (path : string) (now : Q)
| Wake (c : Reads)
| Trigger (reason : string).          (* a call of initiate_shutdown *)

Definition step (e : Event) (s : State) : State :=
  match e with
  | GET path now => fst (do_GET path now s)
  | POST path now => fst (do_POST path now s)
  | Wake c => monitor_wake c s
  | Trigger reason => initiate_shutdown reason s
  end.

Fixpoint run (tr : list Event) (s : State) : State :=
  match tr with
  | [] => s
  | e :: tr => run tr (step e s)
  end.

(** The states a run passes through after each of its events. *)
Fixpoint states (tr : list Event) (s : State) : list State :=
  match tr with
  | [] => []
  | e :: tr => step e s :: states tr (step e s)
  end.

Definition heartbeat (t : Q) : Event := GET "/heartbeat" t.
Definition departure_notice (t : Q) : Event := POST "/shutdown" t.
Definition evaluation (t : Q) : Event := Wake (at_time t).

(** ** Clock readings of a run *)

(** The readings of [time.time()] an event takes, in program order. *)
Definition readings (e : Event) : list Q :=
  match e with
  | GET _ now => [now]
  | POST _ now => [now]
  | Wake c => [r_grace c; r_beat c; r_elapsed c]
  | Trigger _ => []
  end.

(** [nondecreasing t l]: the values of [l] never go down, starting at [t]. *)
Fixpoint nondecreasing (t : Q) (l : list Q) : Prop :=
  match l with
  | [] => True
  | x :: l => t <= x /\ nondecreasing x l
  end.

(** The clock does not run backwards during the run, and no reading is
    below [t0]. *)
Definition chronological (t0 : Q) (tr : list Event) : Prop :=
  nondecreasing t0 (flat_map readings tr).

(** The number of steps of a run at which [shutdown_flag] goes from unset
    to set. *)
Fixpoint latchings (tr : list Event) (s : State) : nat :=
  match tr with
  | [] => 0
  | e :: tr =>
      (if negb (shutdown_flag s) && shutdown_flag (step e s) then 1 else 0)
      + latchings tr (step e s)
  end.

(** [s'] shows no more of a shutdown than [s]. *)
Definition same_shutdown (s s' : State) : Prop :=
  shutdown_flag s' = shutdown_flag s
  /\ shutdown_threads s' = shutdown_threads s
  /\ stdout s' = stdout s.

(** [s'] is [s] after the one effective call of [initiate_shutdown]. *)
Definition shut_down (s s' : State) : Prop :=
  shutdown_flag s = false
  /\ shutdown_flag s' = true
  /\ (shutdown_threads s' <= S (shutdown_threads s))%nat
  /\ exists reason, stdout s' = (stdout s ++ [shutdown_line reason])%list.

(** ** The rules of an evaluation *)

(** The grace-period rule applies: a departure is pending, and the notice
    and the last heartbeat are both older than [SHUTDOWN_GRACE_PERIOD]. *)
Definition grace_rule (c : Reads) (s : State) : Prop :=
  shutdown_requested s = true
  /\ SHUTDOWN_GRACE_PERIOD < r_grace c - shutdown_request_time s
  /\ SHUTDOWN_GRACE_PERIOD < r_beat c - last_heartbeat s.

(** The reload rule applies: a departure is pending, the grace-period rule
    does not apply and the last heartbeat is younger than
    [RESUME_THRESHOLD]. *)
Definition reload_rule (c : Reads) (s : State) : Prop :=
  shutdown_requested s = true
  /\ ~ (SHUTDOWN_GRACE_PERIOD < r_grace c - shutdown_request_time s
        /\ SHUTDOWN_GRACE_PERIOD < r_beat c - last_heartbeat s)
  /\ r_beat c - last_heartbeat s < RESUME_THRESHOLD.

(** Control reaches the normal heartbeat timeout check: no departure is
    pending, or one is and neither of the two rules applies. *)
Definition reaches_timeout_check (c : Reads) (s : State) : Prop :=
  shutdown_requested s = false
  \/ (shutdown_requested s = true
      /\ ~ (SHUTDOWN_GRACE_PERIOD < r_grace c - shutdown_request_time s
            /\ SHUTDOWN_GRACE_PERIOD < r_beat c - last_heartbeat s)
      /\ RESUME_THRESHOLD <= r_beat c - last_heartbeat s).

(** ** Steady heartbeats *)

(** The time of the first heartbeat of a run, if it has one. *)
Fixpoint next_heartbeat (tr : list Event) : option Q :=
  match tr with
  | [] => None
  | GET path now :: tr =>
      if String.eqb path "/heartbeat" then Some now else next_heartbeat tr
  | _ :: tr => next_heartbeat tr
  end.

(** [steady hb tr], where [hb] is the time of the latest heartbeat before
    [tr]: every heartbeat of [tr] comes less than [HEARTBEAT_TIMEOUT] after
    the heartbeat before it; an iteration of the monitor has read the clock
    by the time the next heartbeat arrives, or, after the last heartbeat of
    [tr], before the next one is due; there is no departure notice and no
    call of [initiate_shutdown] from elsewhere. *)
Fixpoint steady (hb : Q) (tr : list Event) : Prop :=
  match tr with
  | [] => True
  | GET path now :: tr =>
      if String.eqb path "/heartbeat"
      then now - hb < HEARTBEAT_TIMEOUT /\ steady now tr
      else steady hb tr
  | POST path _ :: tr => path <> "/shutdown" /\ steady hb tr
  | Wake c :: tr =>
      match next_heartbeat tr with
      | Some t => r_elapsed c <= t
      | None => r_elapsed c - hb < HEARTBEAT_TIMEOUT
      end
      /\ steady hb tr
  | Trigger _ :: _ => False
  end.

(** What steady heartbeats preserve. *)
Definition alive (s : State) : Prop :=
  shutdown_flag s = false
  /\ shutdown_requested s = false
  /\ monitor s <> TERMINATING.

(** ** States of the scenarios *)

(** A server whose monitor has already initiated the shutdown: started at
    time 0, never reached by a heartbeat, stopped by the evaluation at 121.
    The listener still answers requests until [server.shutdown] has taken
    effect. *)
Definition stopped : State :=
  run [Wake (at_time 120); evaluation 121] (boot 8888%Z 0).

(** A run that ends with a departure notice pending and an old heartbeat:
    the server starts at 0, the tab is heard of at 130 and then throttled,
    and is closed at 249. *)
Definition throttled_tab : State :=
  run [Wake (at_time 120); heartbeat 130; departure_notice 249;
       evaluation 250]
      (boot 8888%Z 0).

(** The state the scenario is in once the notice of time 10 has followed the
    heartbeat of time 0. *)
Definition notice_pending (s : State) : State :=
  mkState 0 (server s) false true 10 (stdout s) (shutdown_threads s)
    MONITORING.

(** ** Phases and events of a run *)


Definition is_wake (e : Event) : bool :=
  match e with
  | Wake _ => true
  | _ => false
  end.

Definition is_request (e : Event) : bool :=
  match e with
  | GET _ _ | POST _ _ => true
  | _ => false
  end.


(** At clock reading [t] no heartbeat is from the future, and a pending
    departure notice is not older than the last heartbeat. *)
Definition ordered_notice (t : Q) (s : State) : Prop :=
  last_heartbeat s <= t
  /\ (shutdown_requested s = true ->
      last_heartbeat s <= shutdown_request_time s).

(** ** Port selection *)

Module Ports.

(** What the [try] block of [find_available_port] does for one port: it
    binds, it raises [OSError] (caught, the next port is tried), or it raises
    something else (not caught). *)
Inductive Attempt : Set := Bound | RaisesOSError | RaisesOther.

(** How a call of [find_available_port] ends. *)
Inductive Found : Set :=
| Returned (port : Z)
| Raised (port : Z).                  (* the exception of the attempt on port *)

Section Probe.

(** The sockets of the machine: the outcome of an attempt on a port, and the
    port the operating system hands out for [bind(('localhost', 0))]. *)
Variable attempt : Z -> Attempt.
Variable os_port : Z.

(** The [while port < start_port + 100] loop followed by the fallback;
    [fuel] bounds the number of iterations. *)
Fixpoint search (fuel : nat) (start_port port : Z) : option Found :=
  match fuel with
  | O => None
  | S fuel =>
      if (port <? start_port + 100)%Z then
        match attempt port with
        | Bound => Some (Returned port)
        | RaisesOSError => search fuel start_port (port + 1)%Z
        | RaisesOther => Some (Raised port)
        end
      else Some (Returned os_port)
  end.

(** [find_available_port]; the loop condition is tested at most 101 times.
    The fallback bind is taken to succeed. *)
Definition find_available_port (start_port : Z) : option Found :=
  search 101 start_port start_port.

(** What a result of the search from [start_port] tells about the ports. *)
Definition explains (start_port : Z) (r : Found) : Prop :=
  match r with
  | Returned p =>
      ((start_port <= p < start_port + 100)%Z
       /\ attempt p = Bound
       /\ forall q, (start_port <= q < p)%Z -> attempt q = RaisesOSError)
      \/ (p = os_port
          /\ forall q, (start_port <= q < start_port + 100)%Z ->
                       attempt q = RaisesOSError)
  | Raised p =>
      (start_port <= p < start_port + 100)%Z
      /\ attempt p = RaisesOther
      /\ forall q, (start_port <= q < p)%Z -> attempt q = RaisesOSError
  end.

End Probe.

End Ports.

(** ** Configuration file *)

Module Config.

(** A value as [json.load] returns it. *)
#[warnings="-register-all"]
Inductive Json : Type :=
| JNull
| JBool (b : bool)
| JInt (z : Z)
| JFloat (x : Q)
| JString (s : string)
| JArray (l : list Json)
| JObject (d : list (string * Json)).

(** A Python [dict] with string keys, in insertion order. *)
Definition Dict : Type := list (string * Json).

Definition keys (d : Dict) : list string := map fst d.

(** [d.get(k)]. *)
Fixpoint dict_get (k : string) (d : Dict) : option Json :=
  match d with
  | [] => None
  | (k', v) :: d => if String.eqb k k' then Some v else dict_get k d
  end.

(** [d[k] = v]: the value of a present key is replaced where it stands, a
    new key goes to the end. *)
Fixpoint dict_set (k : string) (v : Json) (d : Dict) : Dict :=
  match d with
  | [] => [(k, v)]
  | (k', v') :: d =>
      if String.eqb k k' then (k, v) :: d else (k', v') :: dict_set k v d
  end.

(** [{**a, **b}]. *)
Definition merge (a b : Dict) : Dict :=
  fold_left (fun acc kv => dict_set (fst kv) (snd kv) acc) b a.

Definition DEFAULT_PORT : Z := 8888.

(** The file at [CONFIG_FILE]: absent, or present with what
    [open] and [json.load] make of it ([None] when one of them raises). *)
Inductive ConfigFile : Type :=
| Absent
| Present (content : option Json).

Definition defaults : Dict := [("port", JInt DEFAULT_PORT)].

(** [load_config].  Unpacking a value that is not a mapping raises
    [TypeError], which the bare [except] swallows like any other error. *)
Definition load_config (file : ConfigFile) : Dict :=
  match file with
  | Present (Some (JObject config)) => merge defaults config
  | _ => defaults
  end.

(** [save_config]: the file holds the dictionary afterwards. *)
Definition save_config (config : Dict) : ConfigFile :=
  Present (Some (JObject config)).

Definition format_int (z : Z) : string :=
  NilZero.string_of_int (Z.to_int z).

(** [set_port]: the file it leaves and the line it prints. *)
Definition set_port (port : Z) (file : ConfigFile) : ConfigFile * string :=
  let config := load_config file in
  let config := dict_set "port" (JInt port) config in
  (save_config config, "Default port set to " ++ format_int port).

(** [config.get('port', DEFAULT_PORT)]. *)
Definition configured_port (config : Dict) : Json :=
  match dict_get "port" config with
  | Some v => v
  | None => JInt DEFAULT_PORT
  end.

End Config.

(** ** Command line *)

Module Cli.
Import Config.

(** [x in args]. *)
Definition mem (x : string) (args : list string) : bool :=
  existsb (String.eqb x) args.

(** [args.index(x)] for an [x] that is in [args]. *)
Fixpoint index (x : string) (args : list string) : nat :=
  match args with
  | [] => 0
  | a :: args => if String.eqb a x then 0 else S (index x args)
  end.

(** What [main] does with its arguments, up to the point where it looks for
    a port and starts the server. *)
Inductive Outcome : Type :=
| Help                                           (* print_help() *)
| ShowConfig                                     (* show_config() *)
| PortSaved (file : ConfigFile) (line : string)  (* set_port(port) *)
| ArgError (line : string)                       (* printed, then return *)
| Serve (preferred_port : Json) (no_browser : bool).

Section Main.

(** [int(s)] for a string: [None] when it raises [ValueError]. *)
Variable int : string -> option Z.

(** [int(args[idx + 1])] inside [try ... except (IndexError, ValueError)]. *)
Definition int_after (flag : string) (args : list string) : option Z :=
  match nth_error args (index flag args + 1) with
  | Some a => int a
  | None => None
  end.

(** [main], from [sys.argv[1:]] and the configuration file. *)
Definition main (args : list string) (file : ConfigFile) : Outcome :=
  if mem "--help" args || mem "-h" args then Help
  else if mem "--config" args then ShowConfig
  else if mem "--set-port" args then
    match int_after "--set-port" args with
    | Some port =>
        let (file', line) := set_port port file in PortSaved file' line
    | None => ArgError "Error: --set-port requires a port number"
    end
  else
    let no_browser := mem "--no-browser" args in
    let continue (session_port : option Z) : Outcome :=
      let config := load_config file in
      let preferred_port :=
        match session_port with
        | Some p => if (p =? 0)%Z then configured_port config else JInt p
        | None => configured_port config
        end in
      Serve preferred_port no_browser in
    if mem "--port" args then
      match int_after "--port" args with
      | Some port => continue (Some port)
      | None => ArgError "Error: --port requires a port number"
      end
    else continue None.

End Main.

End Cli.

(** ** Sanity checks on concrete inputs *)

Example format_121 : Py.format_0f 121 = "121".
Proof. reflexivity. Qed.

Example format_tie_even : Py.format_0f (241 # 2) = "120".
Proof. reflexivity. Qed.

Example format_tie_odd : Py.format_0f (243 # 2) = "122".
Proof. reflexivity. Qed.

Example endswith_html : Py.endswith "/index.html" ".html" = true.
Proof. reflexivity. Qed.

Example endswith_short : Py.endswith "ml" ".html" = false.
Proof. reflexivity. Qed.

Example get_root :
  do_GET "/" 5 (boot 8888%Z 0) = (boot 8888%Z 0, NoCacheFile "/index.html").
Proof. reflexivity. Qed.

Example get_css :
  do_GET "/style.css" 5 (boot 8888%Z 0) = (boot 8888%Z 0, StaticFile "/style.css").
Proof. reflexivity. Qed.

Example timeout_at_121 :
  run [Wake (at_time 60); evaluation 121] (boot 8888%Z 0)
  = mkState 0 (Some 8888%Z) true false 0
      [shutdown_line "No heartbeat for 121 seconds (tab likely closed)"]
      1 TERMINATING.
Proof. reflexivity. Qed.

Example probe_third_port :
  Ports.find_available_port
    (fun p => if (p <? 8890)%Z then Ports.RaisesOSError else Ports.Bound)
    50000 8888
  = Some (Ports.Returned 8890).
Proof. reflexivity. Qed.

Example probe_all_taken :
  Ports.find_available_port (fun _ => Ports.RaisesOSError) 50000 8888
  = Some (Ports.Returned 50000).
Proof. reflexivity. Qed.

Example load_garbage :
  Config.load_config (Config.Present (Some (Config.JArray [])))
  = [("port", Config.JInt 8888)].
Proof. reflexivity. Qed.

Example load_keeps_order :
  Config.load_config
    (Config.Present
       (Some (Config.JObject
                [("theme", Config.JString "dark");
                 ("port", Config.JInt 9000)])))
  = [("port", Config.JInt 9000); ("theme", Config.JString "dark")].
Proof. reflexivity. Qed.

Example main_help_wins :
  Cli.main (fun _ => Some 9000%Z) ["--set-port"; "9000"; "-h"] Config.Absent
  = Cli.Help.
Proof. reflexivity. Qed.

Example main_sets_port :
  Cli.main (fun _ => Some 9000%Z) ["--set-port"; "9000"] Config.Absent
  = Cli.PortSaved
      (Config.Present (Some (Config.JObject [("port", Config.JInt 9000)])))
      "Default port set to 9000".
Proof. reflexivity. Qed.

(** * Lemmas *)

(** ** Comparisons *)

Lemma ltb_lt (x y : Q) : (x <? y) = true <-> x < y.
Proof.
  unfold Clock.ltb. rewrite negb_true_iff. split; intro H.
  - destruct (Qlt_le_dec x y) as [L | L]; [exact L |].
    apply Qle_bool_iff in L. congruence.
  - destruct (Qle_bool y x) eqn:E; [| reflexivity].
    apply Qle_bool_iff in E. lra.
Qed.

Lemma ltb_ge (x y : Q) : (x <? y) = false <-> y <= x.
Proof.
  unfold Clock.ltb. rewrite negb_false_iff. apply Qle_bool_iff.
Qed.

Lemma gtb_gt (x y : Q) : (x >? y) = true <-> y < x.
Proof. apply ltb_lt. Qed.

Lemma gtb_le (x y : Q) : (x >? y) = false <-> x <= y.
Proof. apply ltb_ge. Qed.

(** ** What each operation leaves alone *)

Lemma initiate_shutdown_frame (reason : string) (s : State) :
  let s' := initiate_shutdown reason s in
  last_heartbeat s' = last_heartbeat s
  /\ server s' = server s
  /\ shutdown_requested s' = shutdown_requested s
  /\ shutdown_request_time s' = shutdown_request_time s
  /\ monitor s' = monitor s.
Proof.
  unfold initiate_shutdown. destruct (shutdown_flag s); cbn;
    [repeat split; reflexivity |].
  destruct (server s) eqn:E; cbn; rewrite ?E; repeat split; reflexivity.
Qed.

Lemma initiate_shutdown_latched (reason : string) (s : State) :
  shutdown_flag s = true -> initiate_shutdown reason s = s.
Proof. intro H. unfold initiate_shutdown. rewrite H. reflexivity. Qed.

Lemma initiate_shutdown_fresh (reason : string) (s : State) :
  shutdown_flag s = false ->
  initiate_shutdown reason s
  = mkState (last_heartbeat s) (server s) true (shutdown_requested s)
      (shutdown_request_time s) (stdout s ++ [shutdown_line reason])
      (match server s with
       | Some _ => S (shutdown_threads s)
       | None => shutdown_threads s
       end)
      (monitor s).
Proof.
  intro H. unfold initiate_shutdown. rewrite H.
  unfold start_shutdown_thread, set_shutdown_flag, print. cbn.
  destruct (server s); reflexivity.
Qed.

Lemma timeout_check_last_heartbeat (now : Q) (s : State) :
  last_heartbeat (fst (timeout_check now s)) = last_heartbeat s.
Proof.
  unfold timeout_check. destruct (_ >? _); simpl; [| reflexivity].
  apply initiate_shutdown_frame.
Qed.

Lemma monitor_body_last_heartbeat (c : Reads) (s : State) :
  last_heartbeat (fst (monitor_body c s)) = last_heartbeat s.
Proof.
  unfold monitor_body.
  destruct (shutdown_requested s); [| apply timeout_check_last_heartbeat].
  destruct (_ && _); simpl; [apply initiate_shutdown_frame |].
  destruct (_ <? _); simpl; [reflexivity | apply timeout_check_last_heartbeat].
Qed.

Lemma loop_head_last_heartbeat (s : State) :
  last_heartbeat (loop_head s) = last_heartbeat s.
Proof. unfold loop_head. destruct (shutdown_flag s); reflexivity. Qed.

Lemma monitor_wake_last_heartbeat (c : Reads) (s : State) :
  last_heartbeat (monitor_wake c s) = last_heartbeat s.
Proof.
  unfold monitor_wake. destruct (monitor s).
  - apply loop_head_last_heartbeat.
  - destruct (shutdown_flag s); [reflexivity |].
    pose proof (monitor_body_last_heartbeat c s) as H.
    destruct (monitor_body c s) as [s' [ | | ]]; simpl in *;
      rewrite ?loop_head_last_heartbeat; exact H.
  - reflexivity.
Qed.

(** Only a heartbeat request writes [last_heartbeat], and it writes the
    reading it took. *)
Lemma step_last_heartbeat (e : Event) (s : State) :
  last_heartbeat (step e s) = last_heartbeat s
  \/ exists now, e = heartbeat now /\ last_heartbeat (step e s) = now.
Proof.
  destruct e as [path now | path now | c | reason]; simpl.
  - unfold do_GET. destruct (String.eqb path "/heartbeat") eqn:E.
    + right. exists now. apply String.eqb_eq in E. subst path.
      split; reflexivity.
    + left. destruct (String.eqb path "/shutdown"); [reflexivity |].
      destruct (Py.endswith _ _); reflexivity.
  - left. unfold do_POST. destruct (String.eqb path "/shutdown"); reflexivity.
  - left. apply monitor_wake_last_heartbeat.
  - left. apply initiate_shutdown_frame.
Qed.

(** ** Monotone clocks *)

Lemma last_nonempty (x : Q) (l : list Q) (d d' : Q) :
  last (x :: l) d = last (x :: l) d'.
Proof.
  revert x. induction l as [| y l IH]; intro x; [reflexivity |].
  change (last (y :: l) d = last (y :: l) d'). apply IH.
Qed.

Lemma nondecreasing_app (t : Q) (l1 l2 : list Q) :
  nondecreasing t (l1 ++ l2) ->
  nondecreasing t l1 /\ nondecreasing (last l1 t) l2.
Proof.
  revert t. induction l1 as [| x l1 IH]; intros t H.
  - split; [exact I | exact H].
  - destruct H as [Htx H]. destruct (IH x H) as [H1 H2].
    split; [split; assumption |].
    destruct l1 as [| y l1]; [exact H2 |].
    change (nondecreasing (last (y :: l1) t) l2).
    rewrite (last_nonempty y l1 t x). exact H2.
Qed.

Lemma nondecreasing_last (t : Q) (l : list Q) :
  nondecreasing t l -> t <= last l t.
Proof.
  revert t. induction l as [| x l IH]; intros t H.
  - simpl. lra.
  - destruct H as [Htx H]. specialize (IH x H).
    destruct l as [| y l]; [exact Htx |].
    change (t <= last (y :: l) t).
    rewrite (last_nonempty y l t x). lra.
Qed.

Lemma states_monotone (tr : list Event) :
  forall (s : State) (t : Q),
    last_heartbeat s <= t ->
    nondecreasing t (flat_map readings tr) ->
    nondecreasing (last_heartbeat s) (map last_heartbeat (states tr s)).
Proof.
  induction tr as [| e tr IH]; intros s t Hs Htr; [exact I |].
  change (nondecreasing t (readings e ++ flat_map readings tr)) in Htr.
  apply nondecreasing_app in Htr. destruct Htr as [He Htr].
  pose proof (nondecreasing_last _ _ He) as Hlast.
  change (last_heartbeat s <= last_heartbeat (step e s)
          /\ nondecreasing (last_heartbeat (step e s))
               (map last_heartbeat (states tr (step e s)))).
  destruct (step_last_heartbeat e s) as [E | [now [-> E]]].
  - split; [rewrite E; lra |].
    apply (IH _ (last (readings e) t)); [rewrite E; lra | exact Htr].
  - simpl in He, Hlast, Htr. split; [rewrite E; lra |].
    apply (IH _ now); [rewrite E; lra | exact Htr].
Qed.

(** * The request handler *)

(** C7.  [GET /heartbeat] stores the reading of the clock in
    [last_heartbeat] and clears [shutdown_requested] whatever the state is,
    touches nothing else and answers 200, [text/plain], [no-cache], body
    [ok].  As a heartbeat is the only writer of [last_heartbeat], along every
    run whose clock does not go backwards (starting from a state whose
    [last_heartbeat] is not in the future) the successive values of
    [last_heartbeat] never decrease. *)
Theorem heartbeat_records_and_is_monotone :
  forall (s : State) (tr : list Event),
    chronological (last_heartbeat s) tr ->
    (forall (now : Q) (s0 : State),
        do_GET "/heartbeat" now s0
        = (mkState now (server s0) (shutdown_flag s0) false
             (shutdown_request_time s0) (stdout s0) (shutdown_threads s0)
             (monitor s0),
           Sent (mkResponse 200
                   [("Content-Type", "text/plain");
                    ("Cache-Control", "no-cache")]
                   "ok")))
    /\ nondecreasing (last_heartbeat s) (map last_heartbeat (states tr s)).
Proof.
  intros s tr Htr. split.
  - intros now s0. reflexivity.
  - apply (states_monotone tr s (last_heartbeat s)); [lra | exact Htr].
Qed.

Lemma heartbeat_records_and_is_monotone_witness :
  chronological 0
    [heartbeat 1; departure_notice 2; evaluation (5 # 2); heartbeat 3]
  /\ nondecreasing 0
       (map last_heartbeat
          (states
             [heartbeat 1; departure_notice 2; evaluation (5 # 2); heartbeat 3]
             (boot 8888%Z 0))).
Proof.
  assert (H : chronological (last_heartbeat (boot 8888%Z 0))
                [heartbeat 1; departure_notice 2; evaluation (5 # 2);
                 heartbeat 3]).
  { unfold chronological. simpl. repeat split; lra. }
  split; [exact H |].
  exact (proj2 (heartbeat_records_and_is_monotone (boot 8888%Z 0) _ H)).
Defined.

(** C8.  [GET /shutdown] only acknowledges: the whole state, and so each of
    [last_heartbeat], [shutdown_requested], [shutdown_request_time] and
    [shutdown_flag], is what it was, no shutdown thread is started, and the
    answer is 200 [use POST]. *)
Theorem get_shutdown_changes_nothing :
  forall (now : Q) (s : State),
    do_GET "/shutdown" now s
    = (s, Sent (mkResponse 200 [("Content-Type", "text/plain")] "use POST"))
    /\ (let s' := step (GET "/shutdown" now) s in
        last_heartbeat s' = last_heartbeat s
        /\ shutdown_requested s' = shutdown_requested s
        /\ shutdown_request_time s' = shutdown_request_time s
        /\ shutdown_flag s' = shutdown_flag s
        /\ shutdown_threads s' = shutdown_threads s).
Proof.
  intros now s. split; [reflexivity |]. cbn. repeat split; reflexivity.
Qed.

(** C9.  [POST /shutdown] answers 200 [text/plain] [noted] and only records
    the request: when the flag was not set before the call it is not set
    after it, no shutdown thread has been started, nothing is printed, and
    the state differs from the old one in [shutdown_requested] (now true)
    and [shutdown_request_time] (the clock reading) only. *)
Theorem post_shutdown_only_records :
  forall (now : Q) (s : State),
    shutdown_flag s = false ->
    snd (do_POST "/shutdown" now s)
    = Sent (mkResponse 200 [("Content-Type", "text/plain")] "noted")
    /\ shutdown_flag (fst (do_POST "/shutdown" now s)) = false
    /\ shutdown_threads (fst (do_POST "/shutdown" now s)) = shutdown_threads s
    /\ fst (do_POST "/shutdown" now s)
       = mkState (last_heartbeat s) (server s) (shutdown_flag s) true now
           (stdout s) (shutdown_threads s) (monitor s).
Proof.
  intros now s H. cbn. repeat split; try reflexivity. exact H.
Qed.

Lemma post_shutdown_only_records_witness :
  fst (do_POST "/shutdown" 10 (boot 8888%Z 0))
  = mkState 0 (Some 8888%Z) false true 10 [] 0 WARMUP.
Proof.
  exact (proj2 (proj2 (proj2
    (post_shutdown_only_records 10 (boot 8888%Z 0) eq_refl)))).
Defined.

Lemma post_elsewhere_not_found (path : string) (now : Q) (s : State) :
  path <> "/shutdown" ->
  fst (do_POST path now s) = s.
Proof.
  intro H. unfold do_POST.
  destruct (String.eqb path "/shutdown") eqn:E; [| reflexivity].
  apply String.eqb_eq in E. contradiction.
Qed.

(** C10.  A [POST] to any path other than [/shutdown] is answered 404 with
    no header of the handler's own and no body, and the state is the one
    before the call. *)
Theorem post_elsewhere_is_404 :
  forall (path : string) (now : Q) (s : State),
    path <> "/shutdown" ->
    do_POST path now s = (s, Sent (mkResponse 404 [] "")).
Proof.
  intros path now s H. unfold do_POST.
  destruct (String.eqb path "/shutdown") eqn:E; [| reflexivity].
  apply String.eqb_eq in E. contradiction.
Qed.

Lemma post_elsewhere_is_404_witness :
  do_POST "/heartbeat" 7 (boot 8888%Z 0)
  = (boot 8888%Z 0, Sent (mkResponse 404 [] "")).
Proof.
  apply post_elsewhere_is_404. intro H. discriminate H.
Defined.

(** C6, as stated, fails: in a state whose [shutdown_flag] is set,
    [POST /shutdown] still changes the state. *)
Lemma departure_notice_after_shutdown_changes_state :
  shutdown_flag stopped = true
  /\ shutdown_requested stopped = false
  /\ shutdown_requested (fst (do_POST "/shutdown" 122 stopped)) = true
  /\ fst (do_POST "/shutdown" 122 stopped) <> stopped.
Proof.
  repeat split; try reflexivity.
  intro H. apply (f_equal shutdown_requested) in H. discriminate H.
Qed.

(** C6, amended.  [POST /shutdown] sets [shutdown_requested] and stores the
    clock reading in [shutdown_request_time] in every state, whether or not
    [shutdown_flag] is set; [last_heartbeat], [shutdown_flag] and everything
    else are left as they were. *)
Theorem departure_notice_is_unconditional :
  forall (now : Q) (s : State),
    fst (do_POST "/shutdown" now s)
    = mkState (last_heartbeat s) (server s) (shutdown_flag s) true now
        (stdout s) (shutdown_threads s) (monitor s).
Proof. intros now s. reflexivity. Qed.

(** * Shutdown happens once *)

Lemma same_shutdown_refl (s : State) : same_shutdown s s.
Proof. repeat split. Qed.

Lemma initiate_shutdown_effect (reason : string) (s : State) :
  same_shutdown s (initiate_shutdown reason s)
  \/ shut_down s (initiate_shutdown reason s).
Proof.
  destruct (shutdown_flag s) eqn:E.
  - left. rewrite (initiate_shutdown_latched _ _ E). apply same_shutdown_refl.
  - right. rewrite (initiate_shutdown_fresh _ _ E). unfold shut_down. cbn.
    repeat split; [exact E | destruct (server s); lia |].
    exists reason. reflexivity.
Qed.

Lemma timeout_check_effect (now : Q) (s : State) :
  same_shutdown s (fst (timeout_check now s))
  \/ shut_down s (fst (timeout_check now s)).
Proof.
  unfold timeout_check. destruct (_ >? _); cbn.
  - apply initiate_shutdown_effect.
  - left. apply same_shutdown_refl.
Qed.

Lemma monitor_body_effect (c : Reads) (s : State) :
  same_shutdown s (fst (monitor_body c s))
  \/ shut_down s (fst (monitor_body c s)).
Proof.
  unfold monitor_body.
  destruct (shutdown_requested s); [| apply timeout_check_effect].
  destruct (_ && _); cbn; [apply initiate_shutdown_effect |].
  destruct (_ <? _); cbn; [| apply timeout_check_effect].
  left. repeat split.
Qed.

Lemma set_monitor_effect (p : Phase) (s s' : State) :
  (same_shutdown s s' -> same_shutdown s (set_monitor p s'))
  /\ (shut_down s s' -> shut_down s (set_monitor p s')).
Proof. split; intro H; exact H. Qed.

Lemma loop_head_effect (s s' : State) :
  (same_shutdown s s' -> same_shutdown s (loop_head s'))
  /\ (shut_down s s' -> shut_down s (loop_head s')).
Proof.
  unfold loop_head. destruct (shutdown_flag s'); apply set_monitor_effect.
Qed.

Lemma monitor_wake_effect (c : Reads) (s : State) :
  same_shutdown s (monitor_wake c s) \/ shut_down s (monitor_wake c s).
Proof.
  unfold monitor_wake. destruct (monitor s).
  - left. apply loop_head_effect, same_shutdown_refl.
  - destruct (shutdown_flag s) eqn:E.
    + left. apply set_monitor_effect, same_shutdown_refl.
    + pose proof (monitor_body_effect c s) as H.
      destruct (monitor_body c s) as [s' ctl]. cbn in H.
      destruct ctl; destruct H as [H | H];
        ((left; first [apply set_monitor_effect | apply loop_head_effect];
          exact H)
         || (right; first [apply set_monitor_effect | apply loop_head_effect];
             exact H)).
  - left. apply same_shutdown_refl.
Qed.

(** A step either shows nothing of a shutdown or is the shutdown. *)
Lemma step_effect (e : Event) (s : State) :
  same_shutdown s (step e s) \/ shut_down s (step e s).
Proof.
  destruct e as [path now | path now | c | reason]; cbn [step].
  - left. unfold do_GET. destruct (String.eqb path "/heartbeat").
    + repeat split.
    + destruct (String.eqb path "/shutdown"); [apply same_shutdown_refl |].
      destruct (Py.endswith _ _); apply same_shutdown_refl.
  - left. unfold do_POST.
    destruct (String.eqb path "/shutdown"); repeat split.
  - apply monitor_wake_effect.
  - apply initiate_shutdown_effect.
Qed.

Lemma latched_run (tr : list Event) :
  forall s : State,
    shutdown_flag s = true ->
    same_shutdown s (run tr s) /\ latchings tr s = 0%nat.
Proof.
  induction tr as [| e tr IH]; intros s Hs.
  - split; [apply same_shutdown_refl | reflexivity].
  - destruct (step_effect e s) as [[Hf [Ht Ho]] | [Hf _]]; [| congruence].
    destruct (IH (step e s)) as [[Hf' [Ht' Ho']] Hl]; [congruence |].
    split.
    + unfold same_shutdown. cbn [run]. repeat split; congruence.
    + cbn [latchings]. rewrite Hs, Hl. reflexivity.
Qed.

Lemma latchings_bound (tr : list Event) :
  forall s : State,
    (latchings tr s <= 1)%nat
    /\ (shutdown_threads (run tr s)
        <= shutdown_threads s + latchings tr s)%nat.
Proof.
  induction tr as [| e tr IH]; intro s.
  - cbn. split; lia.
  - cbn [latchings run].
    destruct (step_effect e s) as [[Hf [Ht Ho]] | [Hf [Hf' [Ht _]]]].
    + rewrite Hf. destruct (IH (step e s)) as [IH1 IH2].
      replace (negb (shutdown_flag s) && shutdown_flag s) with false
        by (destruct (shutdown_flag s); reflexivity).
      rewrite Ht in IH2. split; lia.
    + destruct (latched_run tr (step e s) Hf') as [[_ [Ht' _]] Hl].
      rewrite Hf, Hf', Hl, Ht'. cbn. split; lia.
Qed.

(** C5.  Once [shutdown_flag] is set, a call of [initiate_shutdown] returns
    the state it was given, and no run from there, whatever requests,
    monitor iterations and further calls of [initiate_shutdown] it is made
    of, clears the flag, starts a shutdown thread or prints a shutdown line.
    So along any run from any state the flag goes from unset to set at most
    once, and at most that many shutdown threads are started. *)
Theorem shutdown_is_idempotent :
  forall (s : State) (tr : list Event),
    shutdown_flag s = true ->
    (forall reason : string, initiate_shutdown reason s = s)
    /\ shutdown_flag (run tr s) = true
    /\ shutdown_threads (run tr s) = shutdown_threads s
    /\ stdout (run tr s) = stdout s
    /\ (forall (s0 : State) (tr0 : list Event),
           (latchings tr0 s0 <= 1)%nat
           /\ (shutdown_threads (run tr0 s0)
               <= shutdown_threads s0 + latchings tr0 s0)%nat).
Proof.
  intros s tr Hs.
  destruct (latched_run tr s Hs) as [[Hf [Ht Ho]] _].
  split; [intro reason; apply initiate_shutdown_latched; exact Hs |].
  repeat split; try congruence; apply latchings_bound.
Qed.

Lemma shutdown_is_idempotent_witness :
  initiate_shutdown "Unknown" stopped = stopped
  /\ shutdown_threads
       (run [Trigger "Unknown"; evaluation 122; departure_notice 123;
             heartbeat 124; Trigger "Browser tab closed"]
            stopped)
     = 1%nat.
Proof.
  split.
  - exact (proj1 (shutdown_is_idempotent stopped [] eq_refl) "Unknown").
  - exact (proj1 (proj2 (proj2
      (shutdown_is_idempotent stopped
         [Trigger "Unknown"; evaluation 122; departure_notice 123;
          heartbeat 124; Trigger "Browser tab closed"]
         eq_refl)))).
Defined.

(** * One evaluation of the monitor *)

Section Evaluation.

Variables (c : Reads) (s : State).
Hypothesis monitoring : monitor s = MONITORING.
Hypothesis running : shutdown_flag s = false.

(** The four ways through an iteration, with the state each one leaves. *)
Lemma evaluation_cases :
  (grace_rule c s
   /\ monitor_wake c s
      = set_monitor TERMINATING (initiate_shutdown tab_closed_reason s))
  \/ (reload_rule c s
      /\ monitor_wake c s
         = set_monitor MONITORING (set_shutdown_requested false s))
  \/ (reaches_timeout_check c s
      /\ HEARTBEAT_TIMEOUT < r_elapsed c - last_heartbeat s
      /\ monitor_wake c s
         = set_monitor TERMINATING
             (initiate_shutdown
                (timeout_reason (r_elapsed c - last_heartbeat s)) s))
  \/ (reaches_timeout_check c s
      /\ r_elapsed c - last_heartbeat s <= HEARTBEAT_TIMEOUT
      /\ monitor_wake c s = s).
Proof.
  assert (Hs : set_monitor MONITORING s = s).
  { destruct s; cbn in *. subst. reflexivity. }
  unfold monitor_wake, monitor_body, timeout_check, loop_head,
    grace_rule, reload_rule, reaches_timeout_check.
  rewrite monitoring, running.
  set (grace_elapsed := r_grace c - shutdown_request_time s).
  set (heartbeat_elapsed := r_beat c - last_heartbeat s).
  set (elapsed := r_elapsed c - last_heartbeat s).
  destruct (shutdown_requested s) eqn:Ereq.
  - destruct (grace_elapsed >? SHUTDOWN_GRACE_PERIOD) eqn:Eg;
      destruct (heartbeat_elapsed >? SHUTDOWN_GRACE_PERIOD) eqn:Eh; cbn [andb];
      try (left; apply gtb_gt in Eg, Eh; repeat split; assumption);
      (destruct (heartbeat_elapsed <? RESUME_THRESHOLD) eqn:Er;
       [ right; left; cbn; rewrite running; apply ltb_lt in Er;
         repeat split; try assumption;
         intros [Hg Hh];
         first [apply gtb_le in Eg | apply gtb_le in Eh]; lra
       | destruct (elapsed >? HEARTBEAT_TIMEOUT) eqn:Et;
         [ right; right; left | right; right; right; cbn; rewrite running ];
         first [apply gtb_gt in Et | apply gtb_le in Et];
         apply ltb_ge in Er;
         (split;
          [ right; repeat split; try assumption;
            intros [Hg Hh];
            first [apply gtb_le in Eg | apply gtb_le in Eh]; lra
          | split; [assumption | first [reflexivity | exact Hs]] ]) ]).
  - destruct (elapsed >? HEARTBEAT_TIMEOUT) eqn:Et.
    + right; right; left. apply gtb_gt in Et.
      split; [left; reflexivity | split; [exact Et | reflexivity]].
    + right; right; right. apply gtb_le in Et. cbn. rewrite running.
      split; [left; reflexivity | split; [exact Et | exact Hs]].
Qed.

End Evaluation.

(** ** Shutdown lines *)

Lemma shutdown_line_inj (r1 r2 : string) :
  shutdown_line r1 = shutdown_line r2 -> r1 = r2.
Proof. unfold shutdown_line. cbn. intro H. injection H. trivial. Qed.

Lemma reasons_differ (n : Q) : timeout_reason n <> tab_closed_reason.
Proof. unfold timeout_reason, tab_closed_reason. cbn. discriminate. Qed.

Lemma snoc_inj (A : Type) (l : list A) (x y : A) :
  (l ++ [x] = l ++ [y])%list -> x = y.
Proof. intro H. apply app_inv_head in H. injection H. trivial. Qed.

Lemma snoc_neq (A : Type) (l : list A) (x : A) : (l ++ [x])%list <> l.
Proof.
  intro H. apply (f_equal (@List.length A)) in H.
  rewrite length_app in H. cbn in H. lia.
Qed.

Lemma initiate_shutdown_stdout (reason : string) (s : State) (p : Phase) :
  shutdown_flag s = false ->
  stdout (set_monitor p (initiate_shutdown reason s))
  = (stdout s ++ [shutdown_line reason])%list
  /\ shutdown_flag (set_monitor p (initiate_shutdown reason s)) = true.
Proof.
  intro H. rewrite (initiate_shutdown_fresh _ _ H). split; reflexivity.
Qed.

(** Refute an equation between two outputs that differ in their last
    line, or of which one has a line more. *)
Ltac line_clash H :=
  first
    [ apply snoc_inj, shutdown_line_inj in H;
      first [apply reasons_differ in H
            | symmetry in H; apply reasons_differ in H];
      contradiction
    | symmetry in H; apply snoc_neq in H; contradiction ].

(** One direction of an equivalence whose premise is absurd or whose
    conclusion is at hand. *)
Ltac direction :=
  let H := fresh "H" in
  intro H;
  first
    [ tauto
    | reflexivity
    | congruence
    | eexists; reflexivity
    | line_clash H
    | destruct H as [? H]; line_clash H
    | destruct H as [_ H]; lra
    | destruct H as [H | [_ H]]; [tauto | lra] ].

Ltac four_iffs :=
  split; [| split; [| split]]; (split; direction).

(** * The heartbeat timeout and a pending departure *)

(** C3, as stated, fails: with a departure pending since two seconds and a
    heartbeat 121 seconds old, the evaluation shuts down by the heartbeat
    timeout, not by the grace-period rule. *)
Lemma timeout_fires_while_departure_pending :
  shutdown_requested throttled_tab = true
  /\ shutdown_flag throttled_tab = false
  /\ monitor throttled_tab = MONITORING
  /\ step (evaluation 251) throttled_tab
     = mkState 130 (Some 8888%Z) true true 249
         [shutdown_line "No heartbeat for 121 seconds (tab likely closed)"]
         1 TERMINATING.
Proof. repeat split. Qed.

(** C3, amended.  An evaluation (monitor in its loop, flag not set) shuts
    down with a line [No heartbeat for N seconds] exactly when control
    reaches the timeout check, that is when no departure is pending or one
    is pending to which neither the grace-period rule nor the reload rule
    applies, and the time since the last heartbeat exceeds
    [HEARTBEAT_TIMEOUT]; then N is that time.  It shuts down with the line
    [Browser tab closed] exactly when the grace-period rule applies.  It sets
    the flag in these two cases only, so with a departure pending the
    shutdown comes from the grace-period rule or, when that rule does not
    apply, from the heartbeat timeout. *)
Theorem timeout_transition_characterised :
  forall (c : Reads) (s : State),
    monitor s = MONITORING ->
    shutdown_flag s = false ->
    ((exists n : Q,
         stdout (monitor_wake c s)
         = (stdout s ++ [shutdown_line (timeout_reason n)])%list)
     <-> reaches_timeout_check c s
         /\ HEARTBEAT_TIMEOUT < r_elapsed c - last_heartbeat s)
    /\ (stdout (monitor_wake c s)
        = (stdout s
           ++ [shutdown_line
                 (timeout_reason (r_elapsed c - last_heartbeat s))])%list
        <-> reaches_timeout_check c s
            /\ HEARTBEAT_TIMEOUT < r_elapsed c - last_heartbeat s)
    /\ (stdout (monitor_wake c s)
        = (stdout s ++ [shutdown_line tab_closed_reason])%list
        <-> grace_rule c s)
    /\ (shutdown_flag (monitor_wake c s) = true
        <-> grace_rule c s
            \/ (reaches_timeout_check c s
                /\ HEARTBEAT_TIMEOUT < r_elapsed c - last_heartbeat s)).
Proof.
  intros c s Hm Hf.
  pose proof (initiate_shutdown_stdout tab_closed_reason s TERMINATING Hf)
    as [Ao Af].
  pose proof (initiate_shutdown_stdout
                (timeout_reason (r_elapsed c - last_heartbeat s)) s
                TERMINATING Hf) as [Co Cf].
  destruct (evaluation_cases c s Hm Hf)
    as [[HA E] | [[HB E] | [[HC [Ht E]] | [HC [Ht E]]]]]; rewrite E; clear E.
  - (* grace-period rule *)
    assert (N : ~ reaches_timeout_check c s).
    { destruct HA as [R [G H]]. intros [R' | [_ [N _]]]; [congruence | tauto]. }
    rewrite Ao, Af. four_iffs.
  - (* reload rule *)
    assert (N : ~ reaches_timeout_check c s).
    { destruct HB as [R [G H]]. intros [R' | [_ [_ N]]]; [congruence |].
      unfold RESUME_THRESHOLD in *. lra. }
    assert (G : ~ grace_rule c s).
    { destruct HB as [R [G H]]. intros [_ [G1 G2]]. tauto. }
    cbn. rewrite Hf. four_iffs.
  - (* heartbeat timeout *)
    assert (G : ~ grace_rule c s).
    { destruct HC as [R | [R [N H]]]; intros [R' [G1 G2]];
        [congruence | tauto]. }
    rewrite Co, Cf. four_iffs.
  - (* nothing to do *)
    assert (G : ~ grace_rule c s).
    { destruct HC as [R | [R [N H]]]; intros [R' [G1 G2]];
        [congruence | tauto]. }
    rewrite Hf. four_iffs.
Qed.

Lemma timeout_transition_characterised_witness :
  reaches_timeout_check (at_time 251) throttled_tab
  /\ HEARTBEAT_TIMEOUT
     < r_elapsed (at_time 251) - last_heartbeat throttled_tab.
Proof.
  apply (proj1 (proj1 (proj2
    (timeout_transition_characterised (at_time 251) throttled_tab
       eq_refl eq_refl)))).
  reflexivity.
Defined.

(** * Evaluations that change nothing, and the one that closes *)

Lemma quiet_evaluation (c : Reads) (s : State) :
  monitor s = MONITORING ->
  shutdown_flag s = false ->
  shutdown_requested s = false ->
  r_elapsed c - last_heartbeat s <= HEARTBEAT_TIMEOUT ->
  monitor_wake c s = s.
Proof.
  intros Hm Hf Hr Ht.
  destruct (evaluation_cases c s Hm Hf)
    as [[[R _] _] | [[[R _] _] | [[_ [T _]] | [_ [_ E]]]]];
    [congruence | congruence | lra | exact E].
Qed.

Lemma waiting_evaluation (c : Reads) (s : State) :
  monitor s = MONITORING ->
  shutdown_flag s = false ->
  r_grace c - shutdown_request_time s <= SHUTDOWN_GRACE_PERIOD ->
  RESUME_THRESHOLD <= r_beat c - last_heartbeat s ->
  r_elapsed c - last_heartbeat s <= HEARTBEAT_TIMEOUT ->
  monitor_wake c s = s.
Proof.
  intros Hm Hf Hg Hb Ht.
  destruct (evaluation_cases c s Hm Hf)
    as [[[_ [G _]] _] | [[[_ [_ B]] _] | [[_ [T _]] | [_ [_ E]]]]];
    [lra | lra | lra | exact E].
Qed.

Lemma closing_evaluation (c : Reads) (s : State) :
  monitor s = MONITORING ->
  shutdown_flag s = false ->
  shutdown_requested s = true ->
  SHUTDOWN_GRACE_PERIOD < r_grace c - shutdown_request_time s ->
  SHUTDOWN_GRACE_PERIOD < r_beat c - last_heartbeat s ->
  monitor_wake c s
  = set_monitor TERMINATING (initiate_shutdown tab_closed_reason s).
Proof.
  intros Hm Hf Hr Hg Hb.
  assert (N : ~ reaches_timeout_check c s).
  { intros [R | [_ [N _]]]; [congruence | tauto]. }
  destruct (evaluation_cases c s Hm Hf)
    as [[_ E] | [[[_ [B _]] _] | [[R _] | [R _]]]];
    [exact E | tauto | tauto | tauto].
Qed.

(** * Reload *)

(** A heartbeat cancels whatever departure is pending, and an evaluation
    that comes no later than [HEARTBEAT_TIMEOUT] after it finds nothing to
    do. *)
Lemma heartbeat_then_evaluation (s : State) (t_beat : Q) (c : Reads) :
  monitor s = MONITORING ->
  shutdown_flag s = false ->
  r_elapsed c - t_beat <= HEARTBEAT_TIMEOUT ->
  run [heartbeat t_beat; Wake c] s
  = mkState t_beat (server s) false false (shutdown_request_time s)
      (stdout s) (shutdown_threads s) MONITORING.
Proof.
  intros Hm Hf Ht. cbn [run step heartbeat do_GET String.eqb fst].
  cbn. rewrite quiet_evaluation; cbn; try assumption; try reflexivity.
  unfold set_shutdown_requested, set_last_heartbeat. cbn.
  rewrite Hm, Hf. reflexivity.
Qed.

(** C1.  A departure notice sets [shutdown_requested] and stores its time;
    when a heartbeat follows it within [RESUME_THRESHOLD], the evaluation
    of the monitor that comes next (no later than [HEARTBEAT_TIMEOUT] after
    the heartbeat; the loop sleeps one second) leaves the monitor in its
    loop with [shutdown_requested] cleared, the flag unset, no shutdown
    thread started and nothing printed. *)
Theorem reload_keeps_monitoring :
  forall (s : State) (t_notice t_beat : Q) (c : Reads),
    monitor s = MONITORING ->
    shutdown_flag s = false ->
    t_notice <= t_beat ->
    t_beat - t_notice < RESUME_THRESHOLD ->
    r_elapsed c - t_beat <= HEARTBEAT_TIMEOUT ->
    shutdown_requested (step (departure_notice t_notice) s) = true
    /\ shutdown_request_time (step (departure_notice t_notice) s) = t_notice
    /\ run [departure_notice t_notice; heartbeat t_beat; Wake c] s
       = mkState t_beat (server s) false false t_notice
           (stdout s) (shutdown_threads s) MONITORING.
Proof.
  intros s t_notice t_beat c Hm Hf _ _ Ht.
  split; [reflexivity | split; [reflexivity |]].
  change (run [departure_notice t_notice; heartbeat t_beat; Wake c] s)
    with (run [heartbeat t_beat; Wake c] (step (departure_notice t_notice) s)).
  rewrite heartbeat_then_evaluation; try assumption; reflexivity.
Qed.

Lemma reload_keeps_monitoring_witness :
  run [departure_notice 10; heartbeat 11; evaluation 12]
      (step (Wake (at_time 0)) (boot 8888%Z (-120)))
  = mkState 11 (Some 8888%Z) false false 10 [] 0 MONITORING.
Proof.
  refine (proj2 (proj2
    (reload_keeps_monitoring
       (step (Wake (at_time 0)) (boot 8888%Z (-120))) 10 11 (at_time 12)
       eq_refl eq_refl _ _ _)));
    unfold RESUME_THRESHOLD, HEARTBEAT_TIMEOUT; cbn; lra.
Defined.

(** * Tab close *)

Lemma run_app (tr1 tr2 : list Event) :
  forall s : State, run (tr1 ++ tr2) s = run tr2 (run tr1 s).
Proof.
  induction tr1 as [| e tr1 IH]; intro s; [reflexivity |]. cbn. apply IH.
Qed.

Lemma states_app (tr1 tr2 : list Event) :
  forall s : State,
    states (tr1 ++ tr2) s = (states tr1 s ++ states tr2 (run tr1 s))%list.
Proof.
  induction tr1 as [| e tr1 IH]; intro s; [reflexivity |].
  cbn. rewrite IH. reflexivity.
Qed.

(** While the notice is at most [SHUTDOWN_GRACE_PERIOD] old the evaluations
    wait. *)
Lemma grace_period_waits (s : State) (ws : list Q) :
  Forall (fun w => 10 <= w /\ w <= 13) ws ->
  run (map evaluation ws) (notice_pending s) = notice_pending s
  /\ Forall (fun x => x = notice_pending s)
       (states (map evaluation ws) (notice_pending s)).
Proof.
  induction 1 as [| w ws [Hlo Hhi] _ [IHr IHs]]; [split; constructor |].
  assert (E : step (evaluation w) (notice_pending s) = notice_pending s).
  { apply waiting_evaluation; try reflexivity;
      unfold SHUTDOWN_GRACE_PERIOD, RESUME_THRESHOLD, HEARTBEAT_TIMEOUT;
      cbn; lra. }
  cbn [map run states]. rewrite E. split; [exact IHr |].
  constructor; [reflexivity | exact IHs].
Qed.

(** Nothing the program does while the monitor is in its warm-up sleep is a
    shutdown: requests never are, and the wake-up from the sleep goes to the
    loop head without an evaluation. *)
Lemma warmup_decides_nothing (w : State) (e : Event) :
  monitor w = WARMUP ->
  (forall reason, e <> Trigger reason) ->
  same_shutdown w (step e w).
Proof.
  intros Hw He. destruct (step_effect e w) as [H | H]; [exact H |].
  destruct e as [path now | path now | c | reason].
  - cbn in *. unfold do_GET in *. destruct (String.eqb path "/heartbeat").
    + repeat split.
    + destruct (String.eqb path "/shutdown"); [apply same_shutdown_refl |].
      destruct (Py.endswith _ _); apply same_shutdown_refl.
  - cbn. unfold do_POST. destruct (String.eqb path "/shutdown"); repeat split.
  - cbn. unfold monitor_wake. rewrite Hw.
    apply loop_head_effect, same_shutdown_refl.
  - exfalso. apply (He reason). reflexivity.
Qed.

(** C2.  Heartbeat at 0, departure notice at 10, no further heartbeat, the
    monitor in its loop: the evaluations made up to time 13 (grace period 3)
    leave the flag unset and the state as the notice left it, and the
    evaluation that follows, after 13 and by 14, prints
    [Browser tab closed], sets the flag, starts the shutdown thread of the
    listener and ends the loop.  Before the loop, in the warm-up sleep, no
    step of a request or of the monitor sets the flag, starts a thread or
    prints a shutdown line. *)
Theorem tab_close_scenario :
  forall (s : State) (ws : list Q) (t : Q),
    monitor s = MONITORING ->
    shutdown_flag s = false ->
    Forall (fun w => 10 <= w /\ w <= 13) ws ->
    13 < t ->
    t <= 14 ->
    Forall (fun x => shutdown_flag x = false /\ monitor x = MONITORING)
      (states ([heartbeat 0; departure_notice 10] ++ map evaluation ws) s)
    /\ run ([heartbeat 0; departure_notice 10] ++ map evaluation ws
            ++ [evaluation t]) s
       = mkState 0 (server s) true true 10
           (stdout s ++ [shutdown_line tab_closed_reason])
           (match server s with
            | Some _ => S (shutdown_threads s)
            | None => shutdown_threads s
            end)
           TERMINATING
    /\ (forall (w : State) (e : Event),
           monitor w = WARMUP ->
           (forall reason, e <> Trigger reason) ->
           same_shutdown w (step e w)).
Proof.
  intros s ws t Hm Hf Hws Hlo _.
  assert (E : run [heartbeat 0; departure_notice 10] s = notice_pending s).
  { cbn. unfold notice_pending, set_shutdown_request_time,
      set_shutdown_requested, set_last_heartbeat. cbn.
    rewrite Hm, Hf. reflexivity. }
  destruct (grace_period_waits s ws Hws) as [Hr Hs].
  split; [| split].
  - rewrite states_app, E. apply Forall_app. split.
    + cbn. repeat constructor; cbn; assumption.
    + eapply Forall_impl; [| exact Hs]. cbn. intros x ->. split; reflexivity.
  - rewrite app_assoc, run_app, run_app, E, Hr. cbn [run step evaluation].
    rewrite closing_evaluation; try reflexivity;
      [| unfold SHUTDOWN_GRACE_PERIOD; cbn; lra
       | unfold SHUTDOWN_GRACE_PERIOD; cbn; lra].
    rewrite initiate_shutdown_fresh by reflexivity. reflexivity.
  - apply warmup_decides_nothing.
Qed.

Lemma tab_close_scenario_witness :
  run [heartbeat 0; departure_notice 10; evaluation (21 # 2);
       evaluation (23 # 2); evaluation (25 # 2); evaluation (27 # 2)]
      (step (Wake (at_time (-1 # 2))) (boot 8888%Z (-241 # 2)))
  = mkState 0 (Some 8888%Z) true true 10
      [shutdown_line tab_closed_reason] 1 TERMINATING.
Proof.
  refine (proj1 (proj2
    (tab_close_scenario
       (step (Wake (at_time (-1 # 2))) (boot 8888%Z (-241 # 2)))
       [21 # 2; 23 # 2; 25 # 2] (27 # 2) eq_refl eq_refl _ _ _)));
    [repeat constructor; lra | lra | lra].
Defined.

(** * Steady heartbeats *)

Lemma steady_next (tr : list Event) :
  forall (hb t : Q),
    steady hb tr -> next_heartbeat tr = Some t -> t - hb < HEARTBEAT_TIMEOUT.
Proof.
  induction tr as [| e tr IH]; intros hb t Hs Hn; [discriminate Hn |].
  destruct e as [path now | path now | c | reason]; cbn in Hs, Hn.
  - destruct (String.eqb path "/heartbeat").
    + injection Hn as <-. apply Hs.
    + exact (IH _ _ Hs Hn).
  - exact (IH _ _ (proj2 Hs) Hn).
  - exact (IH _ _ (proj2 Hs) Hn).
  - contradiction.
Qed.

Lemma steady_step (e : Event) (tr : list Event) (s : State) :
  alive s ->
  steady (last_heartbeat s) (e :: tr) ->
  alive (step e s)
  /\ same_shutdown s (step e s)
  /\ steady (last_heartbeat (step e s)) tr.
Proof.
  intros [Hf [Hr Hm]] Hs.
  destruct e as [path now | path now | c | reason]; cbn [steady] in Hs.
  - cbn [step]. unfold do_GET.
    destruct (String.eqb path "/heartbeat").
    + destruct Hs as [_ Hs]. repeat split; assumption.
    + destruct (String.eqb path "/shutdown");
        [| destruct (Py.endswith _ _)]; repeat split; assumption.
  - destruct Hs as [Hp Hs]. cbn [step].
    rewrite (post_elsewhere_not_found path now s Hp).
    repeat split; assumption.
  - destruct Hs as [Hc Hs]. cbn [step].
    assert (Ht : r_elapsed c - last_heartbeat s <= HEARTBEAT_TIMEOUT).
    { destruct (next_heartbeat tr) as [t |] eqn:En; [| lra].
      pose proof (steady_next tr _ _ Hs En). lra. }
    destruct (monitor s) eqn:Em; [| | congruence].
    + unfold monitor_wake, loop_head. rewrite Em, Hf.
      repeat split; try assumption. cbn. discriminate.
    + rewrite (quiet_evaluation c s Em Hf Hr Ht).
      repeat split; try assumption. congruence.
  - contradiction.
Qed.

Lemma steady_run (tr : list Event) :
  forall s : State,
    alive s ->
    steady (last_heartbeat s) tr ->
    Forall (fun x => alive x /\ same_shutdown s x) (states tr s).
Proof.
  induction tr as [| e tr IH]; intros s Ha Hs; [constructor |].
  destruct (steady_step e tr s Ha Hs) as [Ha' [Hq Hs']].
  cbn [states]. constructor; [split; assumption |].
  eapply Forall_impl; [| exact (IH _ Ha' Hs')].
  cbn. intros x [Hx [Q1 [Q2 Q3]]]. split; [exact Hx |].
  destruct Hq as [R1 [R2 R3]]. repeat split; congruence.
Qed.

(** C4.  Start with the flag unset, no departure pending and the monitor
    thread not returned.  Along a run of heartbeats, other requests and
    monitor iterations in which every heartbeat follows the one before
    (at first the stored [last_heartbeat]) by less than [HEARTBEAT_TIMEOUT],
    the iterations fall between the heartbeats, and no departure notice is
    posted, every state passed through has the flag unset and the monitor
    thread still running; no shutdown thread is started and nothing is
    printed. *)
Theorem steady_heartbeats_never_terminate :
  forall (s : State) (tr : list Event),
    shutdown_flag s = false ->
    shutdown_requested s = false ->
    monitor s <> TERMINATING ->
    steady (last_heartbeat s) tr ->
    Forall (fun x =>
              shutdown_flag x = false
              /\ monitor x <> TERMINATING
              /\ shutdown_threads x = shutdown_threads s
              /\ stdout x = stdout s)
           (states tr s).
Proof.
  intros s tr Hf Hr Hm Hs.
  eapply Forall_impl; [| apply (steady_run tr s); [repeat split |]; assumption].
  cbn. intros x [[Xf [_ Xm]] [_ [Xt Xo]]]. repeat split; assumption.
Qed.

Lemma steady_heartbeats_never_terminate_witness :
  Forall (fun x =>
            shutdown_flag x = false
            /\ monitor x <> TERMINATING
            /\ shutdown_threads x = 0%nat
            /\ stdout x = [])
         (states
            [heartbeat 30; heartbeat 100; Wake (at_time 120);
             evaluation 121; GET "/" 130; heartbeat 219; evaluation 220;
             POST "/heartbeat" 230; evaluation 338]
            (boot 8888%Z 0)).
Proof.
  refine (steady_heartbeats_never_terminate (boot 8888%Z 0) _
            eq_refl eq_refl _ _).
  - discriminate.
  - unfold HEARTBEAT_TIMEOUT. cbn.
    repeat split; try lra; discriminate.
Defined.

(** * Further properties of the handler and the monitor *)

(** X1.  Only the exact path [/heartbeat] counts as a heartbeat: a [GET] of
    any other path, a longer one or one with a query string included,
    leaves the state as it is. *)
Theorem get_elsewhere_keeps_state :
  forall (path : string) (now : Q) (s : State),
    path <> "/heartbeat" ->
    fst (do_GET path now s) = s.
Proof.
  intros path now s H. unfold do_GET.
  destruct (String.eqb path "/heartbeat") eqn:E.
  - apply String.eqb_eq in E. contradiction.
  - destruct (String.eqb path "/shutdown"); [reflexivity |].
    destruct (Py.endswith _ _); reflexivity.
Qed.

Lemma get_elsewhere_keeps_state_witness :
  fst (do_GET "/heartbeat?t=1" 7 (boot 8888%Z 0)) = boot 8888%Z 0.
Proof.
  apply get_elsewhere_keeps_state. intro H. discriminate H.
Defined.

(** The states an iteration of the loop body can leave. *)
Lemma monitor_body_forms (c : Reads) (s : State) :
  fst (monitor_body c s) = s
  \/ fst (monitor_body c s) = set_shutdown_requested false s
  \/ exists reason, fst (monitor_body c s) = initiate_shutdown reason s.
Proof.
  unfold monitor_body, timeout_check.
  destruct (shutdown_requested s).
  - destruct (_ && _); [right; right; eexists; reflexivity |].
    destruct (_ <? _); [right; left; reflexivity |].
    destruct (_ >? _); [right; right; eexists; reflexivity |].
    left; reflexivity.
  - destruct (_ >? _); [right; right; eexists; reflexivity |].
    left; reflexivity.
Qed.

Lemma set_monitor_same (s : State) : set_monitor (monitor s) s = s.
Proof. destruct s. reflexivity. Qed.

(** A wake-up of the monitor moves the program point of the thread and, at
    most, clears [shutdown_requested] or calls [initiate_shutdown]. *)
Lemma monitor_wake_forms (c : Reads) (s : State) :
  exists (p : Phase) (x : State),
    monitor_wake c s = set_monitor p x
    /\ (x = s
        \/ x = set_shutdown_requested false s
        \/ exists reason, x = initiate_shutdown reason s).
Proof.
  unfold monitor_wake, loop_head. destruct (monitor s) eqn:Em.
  - destruct (shutdown_flag s); eexists; exists s;
      (split; [reflexivity | left; reflexivity]).
  - destruct (shutdown_flag s);
      [eexists; exists s; split; [reflexivity | left; reflexivity] |].
    pose proof (monitor_body_forms c s) as H.
    destruct (monitor_body c s) as [s' ctl]. cbn [fst] in H.
    destruct ctl; [| destruct (shutdown_flag s') ..];
      eexists; exists s'; (split; [reflexivity | exact H]).
  - exists TERMINATING, s. rewrite <- Em at 1.
    split; [symmetry; apply set_monitor_same | left; reflexivity].
Qed.

(** What a wake-up of the monitor can do to the globals the handler
    writes: nothing, or clear [shutdown_requested]. *)
Lemma monitor_wake_globals (c : Reads) (s : State) :
  last_heartbeat (monitor_wake c s) = last_heartbeat s
  /\ shutdown_request_time (monitor_wake c s) = shutdown_request_time s
  /\ server (monitor_wake c s) = server s
  /\ (shutdown_requested (monitor_wake c s) = shutdown_requested s
      \/ shutdown_requested (monitor_wake c s) = false).
Proof.
  destruct (monitor_wake_forms c s) as [p [x [-> [-> | [-> | [r ->]]]]]]; cbn.
  - repeat split. left. reflexivity.
  - repeat split. right. reflexivity.
  - destruct (initiate_shutdown_frame r s) as [A [B [C [D _]]]].
    repeat split; try assumption. left. exact C.
Qed.

Lemma reload_evaluation (c : Reads) (s : State) :
  monitor s = MONITORING ->
  shutdown_flag s = false ->
  shutdown_requested s = true ->
  r_beat c - last_heartbeat s < RESUME_THRESHOLD ->
  monitor_wake c s = set_monitor MONITORING (set_shutdown_requested false s).
Proof.
  intros Hm Hf Hr Hb.
  destruct (evaluation_cases c s Hm Hf)
    as [[[_ [_ G]] _] | [[_ E] | [[R _] | [R _]]]].
  - unfold SHUTDOWN_GRACE_PERIOD, RESUME_THRESHOLD in *. lra.
  - exact E.
  - destruct R as [R | [_ [_ R]]]; [congruence | lra].
  - destruct R as [R | [_ [_ R]]]; [congruence | lra].
Qed.

Lemma timeout_evaluation (c : Reads) (s : State) :
  monitor s = MONITORING ->
  shutdown_flag s = false ->
  shutdown_requested s = false ->
  HEARTBEAT_TIMEOUT < r_elapsed c - last_heartbeat s ->
  monitor_wake c s
  = set_monitor TERMINATING
      (initiate_shutdown (timeout_reason (r_elapsed c - last_heartbeat s)) s).
Proof.
  intros Hm Hf Hr Ht.
  destruct (evaluation_cases c s Hm Hf)
    as [[[R _] _] | [[[R _] _] | [[_ [_ E]] | [_ [T _]]]]];
    [congruence | congruence | exact E | lra].
Qed.

(** X2.  A heartbeat that is overdue ends the server at the next evaluation,
    whether or not a departure is pending: with the last heartbeat more than
    [HEARTBEAT_TIMEOUT] old the evaluation sets the flag and ends the loop,
    printing one of the two shutdown lines. *)
Theorem overdue_heartbeat_terminates :
  forall (c : Reads) (s : State),
    monitor s = MONITORING ->
    shutdown_flag s = false ->
    RESUME_THRESHOLD <= r_beat c - last_heartbeat s ->
    HEARTBEAT_TIMEOUT < r_elapsed c - last_heartbeat s ->
    shutdown_flag (monitor_wake c s) = true
    /\ monitor (monitor_wake c s) = TERMINATING
    /\ (stdout (monitor_wake c s)
        = (stdout s ++ [shutdown_line tab_closed_reason])%list
        \/ stdout (monitor_wake c s)
           = (stdout s
              ++ [shutdown_line
                    (timeout_reason (r_elapsed c - last_heartbeat s))])%list).
Proof.
  intros c s Hm Hf Hb Ht.
  destruct (evaluation_cases c s Hm Hf)
    as [[_ E] | [[[_ [_ B]] _] | [[_ [_ E]] | [_ [T _]]]]];
    [| lra | | lra];
    rewrite E, (initiate_shutdown_fresh _ _ Hf); cbn;
    (split; [reflexivity | split; [reflexivity |]]);
    [left | right]; reflexivity.
Qed.

Lemma overdue_heartbeat_terminates_witness :
  shutdown_flag (monitor_wake (at_time 251) throttled_tab) = true.
Proof.
  refine (proj1 (overdue_heartbeat_terminates (at_time 251) throttled_tab
                   eq_refl eq_refl _ _));
    unfold RESUME_THRESHOLD, HEARTBEAT_TIMEOUT; cbn; lra.
Defined.

(** ** Invariants of the book-keeping *)






(** ** Heartbeats and notices in time *)

Lemma ordered_notice_step (e : Event) (s : State) (t : Q) :
  ordered_notice t s ->
  nondecreasing t (readings e) ->
  ordered_notice (last (readings e) t) (step e s).
Proof.
  intros [Hlh Hreq] He.
  pose proof (nondecreasing_last _ _ He) as Hlast.
  destruct e as [path now | path now | c | reason]; cbn [step].
  - cbn in He, Hlast |- *. unfold do_GET.
    destruct (String.eqb path "/heartbeat");
      [| destruct (String.eqb path "/shutdown");
         [| destruct (Py.endswith _ _)]];
      unfold set_shutdown_requested, set_last_heartbeat; split; cbn;
      first [lra | assumption | intro R; discriminate R].
  - cbn in He, Hlast |- *. unfold do_POST.
    destruct (String.eqb path "/shutdown");
      unfold set_shutdown_request_time, set_shutdown_requested; split; cbn;
      first [lra | assumption | intros _; lra].
  - destruct (monitor_wake_globals c s) as [A [B [_ C]]].
    split; [rewrite A; lra |]. rewrite A, B. intro R.
    apply Hreq. destruct C as [C | C]; congruence.
  - destruct (initiate_shutdown_frame reason s) as [A [_ [B [C _]]]].
    unfold ordered_notice. rewrite A, B, C. split; assumption.
Qed.

(** X5.  While the clock does not go backwards, a departure notice that is
    still pending is never older than the last heartbeat: a heartbeat that
    came after the notice has cleared it.  (So the monitor's test
    [heartbeat_elapsed < 2] can only succeed for a heartbeat that preceded
    the notice.) *)
Theorem pending_notice_follows_heartbeat :
  forall (s : State) (t0 : Q) (tr : list Event),
    last_heartbeat s <= t0 ->
    (shutdown_requested s = true ->
     last_heartbeat s <= shutdown_request_time s) ->
    chronological t0 tr ->
    shutdown_requested (run tr s) = true ->
    last_heartbeat (run tr s) <= shutdown_request_time (run tr s).
Proof.
  intros s t0 tr H0 H1 Htr.
  assert (J : ordered_notice t0 s) by (split; assumption).
  clear H0 H1. revert s t0 J Htr.
  induction tr as [| e tr IH]; intros s t0 J Htr; [apply J |].
  unfold chronological in Htr. cbn [flat_map] in Htr.
  apply nondecreasing_app in Htr. destruct Htr as [He Htr].
  cbn [run]. apply (IH _ (last (readings e) t0)); [| exact Htr].
  apply ordered_notice_step; assumption.
Qed.

Lemma pending_notice_follows_heartbeat_witness :
  last_heartbeat
    (run [heartbeat 5; departure_notice 6; heartbeat 7; departure_notice 9]
       (boot 8888%Z 0))
  <= shutdown_request_time
       (run [heartbeat 5; departure_notice 6; heartbeat 7; departure_notice 9]
          (boot 8888%Z 0)).
Proof.
  refine (pending_notice_follows_heartbeat (boot 8888%Z 0) 0
            [heartbeat 5; departure_notice 6; heartbeat 7; departure_notice 9]
            _ _ _ eq_refl).
  - cbn. lra.
  - intro H. discriminate H.
  - unfold chronological. cbn. repeat split; lra.
Defined.

(** ** Closing the tab *)



Lemma quiet_evaluations (s : State) (ws : list Reads) :
  monitor s = MONITORING ->
  shutdown_flag s = false ->
  shutdown_requested s = false ->
  Forall (fun w => r_elapsed w - last_heartbeat s <= HEARTBEAT_TIMEOUT) ws ->
  run (map Wake ws) s = s.
Proof.
  intros Hm Hf Hr. induction 1 as [| w ws Hw _ IH]; [reflexivity |].
  cbn [map run step]. rewrite quiet_evaluation; assumption.
Qed.

(** X7.  A tab closed less than [RESUME_THRESHOLD] after a heartbeat is not
    noticed by its departure notice: the evaluation that finds the
    heartbeat that young drops the notice, and the server then stops only
    by the heartbeat timeout, at the first evaluation more than
    [HEARTBEAT_TIMEOUT] after that heartbeat. *)
Theorem close_right_after_heartbeat_waits_for_timeout :
  forall (s : State) (t_beat t_notice : Q) (c : Reads) (ws : list Reads)
         (c' : Reads),
    monitor s = MONITORING ->
    shutdown_flag s = false ->
    r_beat c - t_beat < RESUME_THRESHOLD ->
    Forall (fun w => r_elapsed w - t_beat <= HEARTBEAT_TIMEOUT) ws ->
    HEARTBEAT_TIMEOUT < r_elapsed c' - t_beat ->
    run ([heartbeat t_beat; departure_notice t_notice; Wake c] ++ map Wake ws)
        s
    = mkState t_beat (server s) false false t_notice (stdout s)
        (shutdown_threads s) MONITORING
    /\ run ([heartbeat t_beat; departure_notice t_notice; Wake c]
            ++ map Wake ws ++ [Wake c']) s
       = mkState t_beat (server s) true false t_notice
           (stdout s
            ++ [shutdown_line (timeout_reason (r_elapsed c' - t_beat))])
           (match server s with
            | Some _ => S (shutdown_threads s)
            | None => shutdown_threads s
            end)
           TERMINATING.
Proof.
  intros s t_beat t_notice c ws c' Hm Hf Hc Hws Hc'.
  assert (E : run [heartbeat t_beat; departure_notice t_notice; Wake c] s
              = mkState t_beat (server s) false false t_notice (stdout s)
                  (shutdown_threads s) MONITORING).
  { cbn [run step heartbeat departure_notice].
    cbn [do_GET do_POST String.eqb Ascii.eqb Bool.eqb fst]. cbn.
    rewrite reload_evaluation; try assumption; try reflexivity.
    unfold set_monitor, set_shutdown_requested, set_shutdown_request_time,
      set_last_heartbeat. cbn. rewrite Hf. reflexivity. }
  assert (Q : run (map Wake ws)
                (mkState t_beat (server s) false false t_notice (stdout s)
                   (shutdown_threads s) MONITORING)
              = mkState t_beat (server s) false false t_notice (stdout s)
                  (shutdown_threads s) MONITORING).
  { apply quiet_evaluations; try reflexivity. exact Hws. }
  split.
  - rewrite run_app, E. exact Q.
  - rewrite app_assoc, run_app, run_app, E, Q. cbn [run step].
    rewrite timeout_evaluation; try reflexivity; [| exact Hc'].
    rewrite initiate_shutdown_fresh by reflexivity. reflexivity.
Qed.

Lemma close_right_after_heartbeat_waits_for_timeout_witness :
  run [heartbeat 10; departure_notice 11; evaluation (23 # 2);
       evaluation 14; evaluation 130; evaluation 131]
      (step (Wake (at_time 0)) (boot 8888%Z (-120)))
  = mkState 10 (Some 8888%Z) true false 11
      [shutdown_line "No heartbeat for 121 seconds (tab likely closed)"]
      1 TERMINATING.
Proof.
  refine (proj2
    (close_right_after_heartbeat_waits_for_timeout
       (step (Wake (at_time 0)) (boot 8888%Z (-120))) 10 11
       (at_time (23 # 2)) [at_time 14; at_time 130] (at_time 131)
       eq_refl eq_refl _ _ _));
    unfold RESUME_THRESHOLD, HEARTBEAT_TIMEOUT; cbn;
    [lra | repeat constructor; cbn; lra | lra].
Defined.

(** ** The warm-up *)

Lemma requests_keep_flag (tr : list Event) :
  forall s : State,
    Forall (fun e => is_request e = true) tr ->
    shutdown_flag (run tr s) = shutdown_flag s
    /\ monitor (run tr s) = monitor s.
Proof.
  induction tr as [| e tr IH]; intros s H; [split; reflexivity |].
  inversion H as [| e' tr' He Htr]; subst.
  destruct (IH (step e s) Htr) as [A B]. cbn [run]. rewrite A, B.
  destruct e as [path now | path now | c | reason]; try discriminate He;
    cbn [step].
  - unfold do_GET. destruct (String.eqb path "/heartbeat");
      [| destruct (String.eqb path "/shutdown");
         [| destruct (Py.endswith _ _)]]; split; reflexivity.
  - unfold do_POST. destruct (String.eqb path "/shutdown"); split; reflexivity.
Qed.

(** X8.  A server cannot stop itself before the second wake-up of its
    monitor thread: from the start, a run of requests with at most one
    wake-up of the monitor among them leaves the flag unset, whenever the
    requests come and whatever the clock says. *)
Theorem no_shutdown_before_second_wake :
  forall (srv : TCPServer) (t0 : Q) (before after : list Event) (c : Reads),
    Forall (fun e => is_request e = true) before ->
    Forall (fun e => is_request e = true) after ->
    shutdown_flag (run before (boot srv t0)) = false
    /\ shutdown_flag (run (before ++ Wake c :: after) (boot srv t0)) = false
    /\ monitor (run (before ++ Wake c :: after) (boot srv t0)) = MONITORING.
Proof.
  intros srv t0 before after c Hb Ha.
  destruct (requests_keep_flag before (boot srv t0) Hb) as [Bf Bm].
  split; [exact Bf |].
  rewrite run_app. cbn [run step].
  destruct (requests_keep_flag after
              (monitor_wake c (run before (boot srv t0))) Ha) as [Af Am].
  rewrite Af, Am. unfold monitor_wake, loop_head. rewrite Bm, Bf.
  cbn. rewrite Bf. split; reflexivity.
Qed.

Lemma no_shutdown_before_second_wake_witness :
  shutdown_flag
    (run ([departure_notice 1] ++ Wake (at_time 500) :: [departure_notice 900])
       (boot 8888%Z 0))
  = false.
Proof.
  refine (proj1 (proj2
    (no_shutdown_before_second_wake 8888%Z 0 [departure_notice 1]
       [departure_notice 900] (at_time 500) _ _)));
    repeat constructor.
Defined.

(** * Port selection *)

Section ProbeFacts.

Import Ports.

Variable attempt : Z -> Attempt.
Variable os_port : Z.

Lemma search_explained (fuel : nat) :
  forall start_port port : Z,
    (start_port <= port)%Z ->
    (Z.to_nat (start_port + 100 - port) < fuel)%nat ->
    (forall q, (start_port <= q < port)%Z -> attempt q = RaisesOSError) ->
    exists r,
      search attempt os_port fuel start_port port = Some r
      /\ explains attempt os_port start_port r.
Proof.
  induction fuel as [| fuel IH]; intros start_port port Hle Hfuel Hbelow;
    [lia |].
  cbn [search]. destruct (Z.ltb_spec port (start_port + 100)) as [Hin | Hout].
  - destruct (attempt port) eqn:Ea.
    + exists (Returned port). split; [reflexivity | left].
      repeat split; try assumption; lia.
    + apply IH; [lia | lia |].
      intros q Hq. destruct (Z.eq_dec q port) as [-> | Hne]; [exact Ea |].
      apply Hbelow. lia.
    + exists (Raised port). split; [reflexivity |].
      repeat split; try assumption; lia.
  - exists (Returned os_port). split; [reflexivity | right].
    split; [reflexivity |]. intros q Hq. apply Hbelow. lia.
Qed.

End ProbeFacts.

(** X9.  [find_available_port] always comes to an end, and its result tells
    which ports it found taken.  A returned port is the lowest port of the
    hundred from [start_port] on whose attempt binds, all lower ones having
    raised [OSError], or it is the port the operating system picked, all
    hundred having raised [OSError]; an exception other than [OSError]
    leaves the function at the first port that raises one. *)
Theorem find_available_port_explained :
  forall (attempt : Z -> Ports.Attempt) (os_port start_port : Z),
    exists r,
      Ports.find_available_port attempt os_port start_port = Some r
      /\ Ports.explains attempt os_port start_port r.
Proof.
  intros attempt os_port start_port. unfold Ports.find_available_port.
  apply search_explained; [lia | lia |]. intros q Hq. lia.
Qed.




(** X11.  When a port [q] among the hundred can be bound, and no port below
    it raises anything but [OSError], the function returns a port that can
    be bound, not above [q] and not below [start_port]; so a free
    [start_port] is returned itself. *)
Theorem find_available_port_finds_first :
  forall (attempt : Z -> Ports.Attempt) (os_port start_port q : Z),
    (start_port <= q < start_port + 100)%Z ->
    attempt q = Ports.Bound ->
    (forall p, (start_port <= p < q)%Z -> attempt p <> Ports.RaisesOther) ->
    exists p,
      Ports.find_available_port attempt os_port start_port
      = Some (Ports.Returned p)
      /\ (start_port <= p <= q)%Z
      /\ attempt p = Ports.Bound.
Proof.
  intros attempt os_port start_port q Hq Hfree Hmild.
  destruct (search_explained attempt os_port 101 start_port start_port)
    as [r [E X]]; [lia | lia | intros; lia |].
  unfold Ports.find_available_port. rewrite E.
  destruct r as [p | p]; cbn in X.
  - destruct X as [[Hp [Hb Hlow]] | [_ Hall]].
    + exists p. split; [reflexivity |]. split; [| exact Hb].
      destruct (Z_lt_le_dec q p) as [Hlt | Hge]; [| lia].
      specialize (Hlow q ltac:(lia)). congruence.
    + specialize (Hall q Hq). congruence.
  - destruct X as [Hp [Ho Hlow]].
    destruct (Z_lt_le_dec q p) as [Hlt | Hge].
    + specialize (Hlow q ltac:(lia)). congruence.
    + destruct (Z.eq_dec p q) as [-> | Hne]; [congruence |].
      exfalso. apply (Hmild p); [lia | exact Ho].
Qed.

Lemma find_available_port_finds_first_witness :
  exists p,
    Ports.find_available_port
      (fun p => if (p <? 8890)%Z then Ports.RaisesOSError else Ports.Bound)
      50000 8888
    = Some (Ports.Returned p)
    /\ (8888 <= p <= 8890)%Z
    /\ (fun p => if (p <? 8890)%Z then Ports.RaisesOSError else Ports.Bound) p
       = Ports.Bound.
Proof.
  apply (find_available_port_finds_first
           (fun p => if (p <? 8890)%Z then Ports.RaisesOSError
                     else Ports.Bound)
           50000 8888 8890).
  - lia.
  - reflexivity.
  - intros p Hp. destruct (p <? 8890)%Z; discriminate.
Defined.

(** * Configuration file *)

Section DictFacts.

Import Config.

Lemma dict_get_set_same (k : string) (v : Json) (d : Dict) :
  dict_get k (dict_set k v d) = Some v.
Proof.
  induction d as [| [k' v'] d IH]; cbn.
  - rewrite String.eqb_refl. reflexivity.
  - destruct (String.eqb k k') eqn:E; cbn.
    + rewrite String.eqb_refl. reflexivity.
    + rewrite E. exact IH.
Qed.

Lemma dict_get_set_other (k k' : string) (v : Json) (d : Dict) :
  k <> k' -> dict_get k (dict_set k' v d) = dict_get k d.
Proof.
  intro Hne. apply String.eqb_neq in Hne.
  induction d as [| [k'' v''] d IH]; cbn.
  - rewrite Hne. reflexivity.
  - destruct (String.eqb k' k'') eqn:E; cbn.
    + apply String.eqb_eq in E. subst k''. rewrite Hne. reflexivity.
    + destruct (String.eqb k k''); [reflexivity | exact IH].
Qed.

Lemma keys_dict_set (k x : string) (v : Json) (d : Dict) :
  In x (keys (dict_set k v d)) <-> x = k \/ In x (keys d).
Proof.
  induction d as [| [k' v'] d IH]; cbn.
  - intuition auto.
  - destruct (String.eqb k k') eqn:E; cbn.
    + apply String.eqb_eq in E. subst k'. intuition auto.
    + unfold keys in IH. rewrite IH. intuition auto.
Qed.

Lemma dict_set_nodup (k : string) (v : Json) (d : Dict) :
  NoDup (keys d) -> NoDup (keys (dict_set k v d)).
Proof.
  induction d as [| [k' v'] d IH]; cbn; intro H.
  - constructor; [intros [] | constructor].
  - inversion H as [| x l Hnotin Hd]; subst.
    destruct (String.eqb k k') eqn:E; cbn.
    + apply String.eqb_eq in E. subst k'. constructor; assumption.
    + constructor; [| apply IH; exact Hd].
      intro Hin. apply keys_dict_set in Hin. destruct Hin as [-> | Hin].
      * rewrite String.eqb_refl in E. discriminate E.
      * exact (Hnotin Hin).
Qed.

Lemma merge_nodup (b : Dict) :
  forall a : Dict, NoDup (keys a) -> NoDup (keys (merge a b)).
Proof.
  induction b as [| [k v] b IH]; intros a H; [exact H |].
  apply IH, dict_set_nodup, H.
Qed.

Lemma dict_get_absent (k : string) (d : Dict) :
  ~ In k (keys d) -> dict_get k d = None.
Proof.
  induction d as [| [k' v'] d IH]; cbn; intro H; [reflexivity |].
  destruct (String.eqb k k') eqn:E.
  - apply String.eqb_eq in E. subst k'. exfalso. apply H. left. reflexivity.
  - apply IH. intro Hin. apply H. right. exact Hin.
Qed.

Lemma dict_get_merge (k : string) (b : Dict) :
  forall a : Dict,
    NoDup (keys b) ->
    dict_get k (merge a b)
    = match dict_get k b with
      | Some v => Some v
      | None => dict_get k a
      end.
Proof.
  induction b as [| [k' v'] b IH]; intros a H; [reflexivity |].
  inversion H as [| x l Hnotin Hd]; subst.
  change (merge a ((k', v') :: b)) with (merge (dict_set k' v' a) b).
  rewrite (IH _ Hd). cbn [dict_get].
  destruct (String.eqb k k') eqn:E.
  - apply String.eqb_eq in E. subst k'.
    rewrite (dict_get_absent _ _ Hnotin). apply dict_get_set_same.
  - apply String.eqb_neq in E. rewrite (dict_get_set_other _ _ _ _ E).
    reflexivity.
Qed.

Lemma dict_get_merge_present (k : string) (b : Dict) :
  forall a : Dict,
    (exists v, dict_get k a = Some v) ->
    exists v, dict_get k (merge a b) = Some v.
Proof.
  induction b as [| [k' v'] b IH]; intros a H; [exact H |].
  apply (IH (dict_set k' v' a)).
  destruct (String.eqb k k') eqn:E.
  - apply String.eqb_eq in E. subst k'. exists v'. apply dict_get_set_same.
  - apply String.eqb_neq in E. rewrite (dict_get_set_other _ _ _ _ E).
    exact H.
Qed.

Lemma load_config_nodup (file : ConfigFile) : NoDup (keys (load_config file)).
Proof.
  assert (D : NoDup (keys defaults)).
  { constructor; [intros [] | constructor]. }
  destruct file as [| [[ | | | | | | d] |]]; try exact D.
  apply merge_nodup, D.
Qed.

End DictFacts.

(** X12.  [load_config] never fails and its result always has a [port],
    whatever the file is: absent, unreadable, not a JSON object, or an
    object with or without that key; and no key occurs twice in it. *)
Theorem load_config_always_has_port :
  forall file : Config.ConfigFile,
    (exists v, Config.dict_get "port" (Config.load_config file) = Some v)
    /\ NoDup (Config.keys (Config.load_config file)).
Proof.
  intro file. split; [| apply load_config_nodup].
  assert (D : exists v,
             Config.dict_get "port" Config.defaults = Some v).
  { eexists. reflexivity. }
  destruct file as [| [[ | | | | | | d] |]]; try exact D.
  apply dict_get_merge_present, D.
Qed.

(** X13.  For a file that holds a JSON object, a key has in the loaded
    configuration the value the file gives it, and the default value when
    the file does not give one: the file overrides the defaults and adds to
    them. *)
Theorem load_config_file_overrides_defaults :
  forall (d : Config.Dict) (k : string),
    NoDup (Config.keys d) ->
    Config.dict_get k
      (Config.load_config (Config.Present (Some (Config.JObject d))))
    = match Config.dict_get k d with
      | Some v => Some v
      | None => Config.dict_get k Config.defaults
      end.
Proof.
  intros d k H. cbn [Config.load_config]. apply dict_get_merge, H.
Qed.

Lemma load_config_file_overrides_defaults_witness :
  Config.dict_get "port"
    (Config.load_config
       (Config.Present
          (Some (Config.JObject
                   [("theme", Config.JString "dark");
                    ("port", Config.JInt 9000)]))))
  = Some (Config.JInt 9000).
Proof.
  apply (load_config_file_overrides_defaults
           [("theme", Config.JString "dark"); ("port", Config.JInt 9000)]
           "port").
  repeat constructor; cbn; intuition discriminate.
Defined.

(** X14.  [set_port] and [load_config] round-trip: whatever the file was,
    after [set_port port] the loaded configuration has that port, and every
    other key has the value it had in the configuration loaded before. *)
Theorem set_port_round_trip :
  forall (port : Z) (file : Config.ConfigFile) (k : string),
    k <> "port" ->
    Config.dict_get "port"
      (Config.load_config (fst (Config.set_port port file)))
    = Some (Config.JInt port)
    /\ Config.dict_get k
         (Config.load_config (fst (Config.set_port port file)))
       = Config.dict_get k (Config.load_config file).
Proof.
  intros port file k Hk. unfold Config.set_port, Config.save_config.
  cbn [fst]. cbn [Config.load_config].
  assert (D : NoDup (Config.keys
                       (Config.dict_set "port" (Config.JInt port)
                          (Config.load_config file)))).
  { apply dict_set_nodup, load_config_nodup. }
  rewrite !(dict_get_merge _ _ _ D). rewrite dict_get_set_same.
  split; [reflexivity |].
  rewrite (dict_get_set_other _ _ _ _ Hk).
  destruct (Config.dict_get k (Config.load_config file)); [reflexivity |].
  cbn. apply String.eqb_neq in Hk. rewrite Hk. reflexivity.
Qed.

Lemma set_port_round_trip_witness :
  Config.dict_get "theme"
    (Config.load_config
       (fst (Config.set_port 9000
               (Config.Present
                  (Some (Config.JObject
                           [("theme", Config.JString "dark")]))))))
  = Some (Config.JString "dark").
Proof.
  refine (proj2 (set_port_round_trip 9000 _ "theme" _)).
  intro H. discriminate H.
Defined.

(** * Command line *)

Section CliFacts.

Import Config Cli.

Variable int : string -> option Z.

Lemma mem_app (x : string) (l1 l2 : list string) :
  mem x (l1 ++ l2) = mem x l1 || mem x l2.
Proof. unfold mem. apply existsb_app. Qed.

Lemma index_app (x : string) (pre rest : list string) :
  mem x pre = false -> index x (pre ++ x :: rest) = List.length pre.
Proof.
  induction pre as [| a pre IH]; cbn; intro H.
  - rewrite String.eqb_refl. reflexivity.
  - apply orb_false_iff in H. destruct H as [Ha Hpre].
    rewrite String.eqb_sym, Ha. f_equal. apply IH, Hpre.
Qed.

Lemma int_after_app (flag : string) (pre rest : list string) :
  mem flag pre = false ->
  int_after int flag (pre ++ flag :: rest)
  = match rest with
    | a :: _ => int a
    | [] => None
    end.
Proof.
  intro H. unfold int_after. rewrite (index_app _ _ _ H).
  rewrite nth_error_app2 by lia.
  replace (List.length pre + 1 - List.length pre)%nat with 1%nat by lia.
  destruct rest; reflexivity.
Qed.

Lemma set_port_then_load (port : Z) (file : ConfigFile) :
  configured_port (load_config (fst (set_port port file))) = JInt port.
Proof.
  unfold configured_port, set_port, save_config. cbn [fst load_config].
  rewrite dict_get_merge by apply dict_set_nodup, load_config_nodup.
  rewrite dict_get_set_same. reflexivity.
Qed.

End CliFacts.

(** X15.  A port saved with [--set-port] is the port the next plain start
    prefers: when the first [--set-port] of the arguments is followed by an
    integer, and no [--help], [-h] or [--config] is given, [main] saves the
    port and prints the confirmation, and a later [main] without arguments
    goes on to serve with that port preferred and the browser opened. *)
Theorem saved_port_is_preferred_next_time :
  forall (int : string -> option Z) (pre : list string) (a : string)
         (post : list string) (file : Config.ConfigFile) (port : Z),
    Cli.mem "--help" (pre ++ "--set-port" :: a :: post) = false ->
    Cli.mem "-h" (pre ++ "--set-port" :: a :: post) = false ->
    Cli.mem "--config" (pre ++ "--set-port" :: a :: post) = false ->
    Cli.mem "--set-port" pre = false ->
    int a = Some port ->
    Cli.main int (pre ++ "--set-port" :: a :: post) file
    = Cli.PortSaved (fst (Config.set_port port file))
        ("Default port set to " ++ Config.format_int port)
    /\ Cli.main int [] (fst (Config.set_port port file))
       = Cli.Serve (Config.JInt port) false.
Proof.
  intros int pre a post file port Hh Hh' Hc Hpre Ha. split.
  - unfold Cli.main. rewrite Hh, Hh', Hc. cbn [orb].
    rewrite mem_app, Hpre. cbn [orb Cli.mem existsb String.eqb Ascii.eqb
                                Bool.eqb].
    cbn. rewrite (int_after_app int _ _ _ Hpre), Ha. reflexivity.
  - unfold Cli.main. cbn [Cli.mem existsb orb].
    rewrite set_port_then_load. reflexivity.
Qed.

Lemma saved_port_is_preferred_next_time_witness :
  Cli.main (fun s => if String.eqb s "9000" then Some 9000%Z else None) []
    (fst (Config.set_port 9000 Config.Absent))
  = Cli.Serve (Config.JInt 9000) false.
Proof.
  refine (proj2
    (saved_port_is_preferred_next_time
       (fun s => if String.eqb s "9000" then Some 9000%Z else None)
       ["--no-browser"] "9000" [] Config.Absent 9000
       eq_refl eq_refl eq_refl eq_refl eq_refl)).
Defined.

(** X16.  Without [--help], [-h], [--config] and [--set-port], the
    integer after the first [--port] is the preferred port of the session
    unless it is zero; a zero is taken for no port at all and the configured
    port is preferred.  The browser is skipped exactly when [--no-browser]
    is among the arguments. *)
Theorem session_port_overrides_unless_zero :
  forall (int : string -> option Z) (pre : list string) (a : string)
         (post : list string) (file : Config.ConfigFile) (port : Z),
    Cli.mem "--help" (pre ++ "--port" :: a :: post) = false ->
    Cli.mem "-h" (pre ++ "--port" :: a :: post) = false ->
    Cli.mem "--config" (pre ++ "--port" :: a :: post) = false ->
    Cli.mem "--set-port" (pre ++ "--port" :: a :: post) = false ->
    Cli.mem "--port" pre = false ->
    int a = Some port ->
    Cli.main int (pre ++ "--port" :: a :: post) file
    = Cli.Serve
        (if (port =? 0)%Z
         then Config.configured_port (Config.load_config file)
         else Config.JInt port)
        (Cli.mem "--no-browser" (pre ++ "--port" :: a :: post)).
Proof.
  intros int pre a post file port Hh Hh' Hc Hs Hpre Ha.
  unfold Cli.main. rewrite Hh, Hh', Hc, Hs. cbn [orb].
  replace (Cli.mem "--port" (pre ++ "--port" :: a :: post)) with true.
  - rewrite (int_after_app int _ _ _ Hpre), Ha. reflexivity.
  - rewrite mem_app, Hpre. reflexivity.
Qed.

Lemma session_port_overrides_unless_zero_witness :
  Cli.main (fun s => if String.eqb s "0" then Some 0%Z else None)
    ["--no-browser"; "--port"; "0"]
    (Config.Present (Some (Config.JObject [("port", Config.JInt 9000)])))
  = Cli.Serve (Config.JInt 9000) true.
Proof.
  exact (session_port_overrides_unless_zero
           (fun s => if String.eqb s "0" then Some 0%Z else None)
           ["--no-browser"] "0" []
           (Config.Present
              (Some (Config.JObject [("port", Config.JInt 9000)])))
           0 eq_refl eq_refl eq_refl eq_refl eq_refl eq_refl).
Defined.

(** X17.  A [--set-port] or [--port] that is the last argument, or whose
    next argument is not an integer, is answered with the error line and
    nothing else: no port is saved and no server started.  (None of the
    five flags [main] knows is among the other arguments.) *)
Theorem port_flag_without_number_is_an_error :
  forall (int : string -> option Z) (pre rest : list string)
         (file : Config.ConfigFile),
    Forall (fun flag => Cli.mem flag (pre ++ rest) = false)
      ["--help"; "-h"; "--config"; "--set-port"; "--port"] ->
    match rest with
    | a :: _ => int a = None
    | [] => True
    end ->
    Cli.main int (pre ++ "--set-port" :: rest) file
    = Cli.ArgError "Error: --set-port requires a port number"
    /\ Cli.main int (pre ++ "--port" :: rest) file
       = Cli.ArgError "Error: --port requires a port number".
Proof.
  intros int pre rest file Hflags Hrest.
  assert (F : forall flag,
             In flag ["--help"; "-h"; "--config"; "--set-port"; "--port"] ->
             Cli.mem flag pre = false /\ Cli.mem flag rest = false).
  { intros flag Hin. rewrite Forall_forall in Hflags.
    specialize (Hflags flag Hin). rewrite mem_app in Hflags.
    apply orb_false_iff in Hflags. exact Hflags. }
  destruct (F "--help") as [H1 H1']; [cbn; tauto |].
  destruct (F "-h") as [H2 H2']; [cbn; tauto |].
  destruct (F "--config") as [H3 H3']; [cbn; tauto |].
  destruct (F "--set-port") as [H4 H4']; [cbn; tauto |].
  destruct (F "--port") as [H5 H5']; [cbn; tauto |].
  assert (N : match rest with
              | a :: _ => int a
              | [] => None
              end = None).
  { destruct rest; [reflexivity | exact Hrest]. }
  assert (M : forall x flag,
             Cli.mem x pre = false -> Cli.mem x rest = false ->
             String.eqb x flag = false ->
             Cli.mem x (pre ++ flag :: rest) = false).
  { intros x flag Hp Hr Hx. rewrite mem_app, Hp.
    cbn [orb Cli.mem existsb]. rewrite Hx. exact Hr. }
  assert (Y : forall flag,
             Cli.mem flag (pre ++ flag :: rest) = true).
  { intros flag. rewrite mem_app. cbn [Cli.mem existsb].
    rewrite String.eqb_refl. cbn. apply orb_true_r. }
  split; unfold Cli.main.
  - rewrite (M "--help"), (M "-h"), (M "--config"), Y by
      (assumption || reflexivity).
    cbn [orb]. rewrite (int_after_app int _ _ _ H4), N. reflexivity.
  - rewrite (M "--help"), (M "-h"), (M "--config"), (M "--set-port"), Y by
      (assumption || reflexivity).
    cbn [orb]. rewrite (int_after_app int _ _ _ H5), N. reflexivity.
Qed.

Lemma port_flag_without_number_is_an_error_witness :
  Cli.main (fun _ => None) ["--no-browser"; "--port"; "http"] Config.Absent
  = Cli.ArgError "Error: --port requires a port number".
Proof.
  refine (proj2
    (port_flag_without_number_is_an_error (fun _ => None)
       ["--no-browser"] ["http"] Config.Absent _ eq_refl)).
  repeat constructor.
Defined.
